(** * MMASH dataset loader (pyhealth/datasets/mmash.py)

    A shallow embedding of [MMASHDataset]: its constructor, the download and
    extraction of the archive, and the assembly of one record per subject.

    The loader is effectful Python: it talks to the file system, to the
    network, to pandas and to its base class.  Each such call is an [event]
    answered by the environment, a program is a tree of events ([prog]), and
    [run] interprets a program against a [handler], logging every event with
    its answer.  Exceptions are values of [exn]; an event may be answered by an
    exception, which propagates unless a [try_except] catches it. *)

From Stdlib Require Import Strings.String Strings.Ascii Strings.Byte.
From Stdlib Require Import Sorting.Sorted Sorting.Permutation.
From stdpp Require Import base list strings gmap fin_maps.

Local Open Scope string_scope.
Local Open Scope list_scope.

(** ** Python values the loader handles *)

Module Py.

(** [x in l] for a list of strings: the first element equal to [x] decides. *)
Definition contains (x : string) (l : list string) : bool :=
  existsb (String.eqb x) l.

(** [s.startswith(p)] and [s.endswith(p)]. *)
Definition startswith (p s : string) : bool := String.prefix p s.

Definition endswith (p s : string) : bool :=
  let n := String.length s in
  let m := String.length p in
  (m <=? n)%nat && String.eqb (String.substring (n - m) m s) p.

(** [repr] of a string without quotes, backslashes or control characters,
    which is what the table names are. *)
Definition repr_str (s : string) : string := "'" +:+ s +:+ "'".

(** [repr] of a list of such strings: ['a', 'b']. *)
Definition repr_list (l : list string) : string :=
  "[" +:+ String.concat ", " (map repr_str l) +:+ "]".

(** Characters [int] strips on both sides of its argument: tab, newline,
    vertical tab, form feed, carriage return and space, and of the characters
    above 127 of the Latin-1 range, in which HTTP header values live, the two
    that are white space, U+0085 and U+00A0.  The separators U+001C to U+001F
    are not stripped. *)
Definition isspace (c : ascii) : bool :=
  let n := nat_of_ascii c in
  ((9 <=? n) && (n <=? 13) || (n =? 32) || (n =? 133) || (n =? 160))%nat.

Definition digit (c : ascii) : option Z :=
  let n := nat_of_ascii c in
  if ((48 <=? n) && (n <=? 57))%nat then Some (Z.of_nat (n - 48)) else None.

Fixpoint lstrip (s : string) : string :=
  match s with
  | String c s' => if isspace c then lstrip s' else s
  | EmptyString => EmptyString
  end.

Fixpoint rstrip (s : string) : string :=
  match s with
  | String c s' =>
      match rstrip s' with
      | EmptyString => if isspace c then EmptyString else String c EmptyString
      | t => String c t
      end
  | EmptyString => EmptyString
  end.

(** Decimal digits with single underscores between them; [acc] is the value
    read so far and [after_digit] tells whether the last character was a
    digit (an underscore is legal only between two digits). *)
Fixpoint digits (s : string) (acc : Z) (after_digit : bool) : option Z :=
  match s with
  | EmptyString => if after_digit then Some acc else None
  | String c s' =>
      match digit c with
      | Some d => digits s' (10 * acc + d)%Z true
      | None =>
          if (Ascii.eqb c "_" && after_digit)%bool
          then match s' with
               | EmptyString => None
               | String c' _ =>
                   match digit c' with
                   | Some _ => digits s' acc false
                   | None => None
                   end
               end
          else None
      end
  end.

(** The number of decimal digits in a string. *)
Fixpoint count_digits (s : string) : nat :=
  match s with
  | EmptyString => 0
  | String c s' =>
      match digit c with
      | Some _ => S (count_digits s')
      | None => count_digits s'
      end
  end.

(** [int(s)] for a string [s], base 10: [None] is [ValueError].  White space
    around the literal is dropped, one sign is allowed, and a literal of more
    than 4300 digits is refused (the default of [sys.set_int_max_str_digits]). *)
Definition int_of_str (s : string) : option Z :=
  let t := rstrip (lstrip s) in
  if (4300 <? count_digits t)%nat then None
  else
    match t with
    | String "+" t' => digits t' 0%Z false
    | String "-" t' => Z.opp <$> digits t' 0%Z false
    | _ => digits t 0%Z false
    end.

(** ASCII lower-casing, for the case-insensitive header dictionary. *)
Definition lower_ascii (c : ascii) : ascii :=
  let n := nat_of_ascii c in
  if ((65 <=? n) && (n <=? 90))%nat then ascii_of_nat (n + 32) else c.

Fixpoint lower (s : string) : string :=
  match s with
  | EmptyString => EmptyString
  | String c s' => String (lower_ascii c) (lower s')
  end.

(** [sorted(l)] on strings: ordered by code point, character by character.
    The order is total and antisymmetric, so the sorted list is unique and
    the algorithm (here: stable insertion) does not show. *)
Fixpoint insert_sorted (x : string) (l : list string) : list string :=
  match l with
  | [] => [x]
  | y :: l' => if String.leb x y then x :: l else y :: insert_sorted x l'
  end.

Fixpoint sorted (l : list string) : list string :=
  match l with
  | [] => []
  | x :: l' => insert_sorted x (sorted l')
  end.

End Py.

(** [os.path.join(a, b)] on POSIX: an absolute [b] replaces [a]; otherwise the
    two are glued with one separator, unless [a] is empty or ends with one. *)
Definition os_path_join (a b : string) : string :=
  if Py.startswith "/" b then b
  else if (String.eqb a "" || Py.endswith "/" a)%bool then a +:+ b
  else a +:+ "/" +:+ b.

(** ** Data model *)

(** A cell of a table as pandas parses it. *)
Inductive value : Type :=
| VInt (z : Z)
| VStr (s : string)
| VNaN.

(** A pandas [DataFrame]: an index of [df_len] rows and the columns in their
    order, each a label with its cells. *)
Record DataFrame : Type := {
  df_len : nat;
  df_columns : list (string * list value)
}.

(** [df[name] = v] for a scalar [v]: the scalar is broadcast over the index;
    every column already labelled [name] is overwritten in place, and when
    there is none the column is appended. *)
Definition df_setitem (df : DataFrame) (name : string) (v : value) : DataFrame :=
  let col := repeat v (df_len df) in
  {| df_len := df_len df;
     df_columns :=
       if Py.contains name (map fst (df_columns df))
       then map (fun c => if String.eqb (fst c) name then (fst c, col) else c)
                (df_columns df)
       else df_columns df ++ [(name, col)] |}.

(** The columns labelled [name] ([df[name]], which is one column after
    [read_csv], whose header labels are made distinct). *)
Definition df_getitem (df : DataFrame) (name : string) : list (list value) :=
  map snd (List.filter (fun c => String.eqb (fst c) name) (df_columns df)).

(** Exceptions, by the class the loader tells apart: [ValueError] is what it
    raises itself, [FileNotFoundError] is what it catches, and every other
    class (PermissionError, pandas' ParserError and EmptyDataError,
    ConnectionError, BadZipFile, ...) is [OtherError] with its class name. *)
Inductive exn : Type :=
| ValueError (msg : string)
| FileNotFoundError (msg : string)
| OtherError (cls msg : string).

(** [except FileNotFoundError] matches exactly that class. *)
Definition is_FileNotFoundError (e : exn) : bool :=
  match e with FileNotFoundError _ => true | _ => false end.

Inductive result (A : Type) : Type :=
| Ok (a : A)
| Exc (e : exn).
Arguments Ok {A} a.
Arguments Exc {A} e.

(** The per-subject record: a dict from table name to table. *)
Abbreviation record_t := (gmap string DataFrame).

(** Keyword options passed through to the base class. *)
Definition Kwargs : Type := list (string * string).

(** What [requests.get] returns: the status line and the headers; the body is
    consumed afterwards through [iter_content].  The headers are requests'
    case-insensitive dictionary, which stores each value under the lower-cased
    name. *)
Record Response : Type := {
  status_code : nat;
  headers : gmap string string
}.

(** [response.headers.get(key)]. *)
Definition headers_get (h : gmap string string) (key : string) : option string :=
  h !! Py.lower key.

Definition bytes : Type := list Byte.byte.

(** ** Events: the calls that leave the module *)

Inductive event : Type -> Type :=
(* the base class BaseDataset *)
| SuperInit (dataset_name root : string) (tables : list string) (dev : bool)
    (kwargs : Kwargs) : event string  (* answers with self.root as it set it *)
| AddSample (patient_id visit_id : string) (record : record_t) : event unit
(* os and os.path *)
| OsPathExists (path : string) : event bool
| OsPathIsdir (path : string) : event bool
| OsListdir (path : string) : event (list string)
| OsMakedirs (path : string) (exist_ok : bool) : event unit
| OsRemove (path : string) : event unit
(* pandas *)
| PdReadCsv (path : string) : event DataFrame
(* requests: the body is the chunks received before the stream ends or
   fails with the given exception *)
| RequestsGet (url : string) (stream : bool) : event Response
| IterContent (chunk_size : nat) : event (list bytes * option exn)
(* the archive being written *)
| OpenWb (path : string) : event unit
| FileWrite (data : bytes) : event nat
| FileClose : event unit
(* tqdm *)
| TqdmOpen (desc : string) (total : Z) : event unit
| TqdmUpdate (n : nat) : event unit
| TqdmClose : event unit
(* zipfile *)
| ZipOpen (path : string) : event unit
| ZipExtractall (dest : string) : event unit
| ZipClose : event unit.

(** ** Programs *)

Inductive prog (A : Type) : Type :=
| Ret (a : A)
| Throw (e : exn)
| Vis {X : Type} (ev : event X) (k : result X -> prog A).
Arguments Ret {A} a.
Arguments Throw {A} e.
Arguments Vis {A X} ev k.

Fixpoint bind {A B : Type} (p : prog A) (f : A -> prog B) : prog B :=
  match p with
  | Ret a => f a
  | Throw e => Throw e
  | Vis ev k => Vis ev (fun r => bind (k r) f)
  end.

(** Calling out: an exception the environment answers with is raised here. *)
Definition call {X : Type} (ev : event X) : prog X :=
  Vis ev (fun r => match r with Ok x => Ret x | Exc e => Throw e end).

(** Running [p] to its end, exceptions reified. *)
Fixpoint attempt {A : Type} (p : prog A) : prog (result A) :=
  match p with
  | Ret a => Ret (Ok a)
  | Throw e => Ret (Exc e)
  | Vis ev k => Vis ev (fun r => attempt (k r))
  end.

Definition reraise {A : Type} (r : result A) : prog A :=
  match r with Ok a => Ret a | Exc e => Throw e end.

Declare Scope prog_scope.
Delimit Scope prog_scope with prog.
Notation "x <- p ;; q" := (bind p (fun x => q))
  (at level 100, p at next level, right associativity) : prog_scope.
Notation "p ;;; q" := (bind p (fun _ => q))
  (at level 100, right associativity) : prog_scope.
Local Open Scope prog_scope.

(** [try: p except <class>: h]: only exceptions [catches] accepts are
    handled, the others go on propagating. *)
Definition try_except {A : Type} (p : prog A) (catches : exn -> bool)
    (h : prog A) : prog A :=
  r <- attempt p ;;
  match r with
  | Ok a => Ret a
  | Exc e => if catches e then h else Throw e
  end.

(** [with enter as x: body]: [exit] runs however [body] ends, and an
    exception of [body] is raised again after it. *)
Definition with_ {R A : Type} (enter : prog R) (exit : R -> prog unit)
    (body : R -> prog A) : prog A :=
  x <- enter ;;
  r <- attempt (body x) ;;
  exit x ;;;
  reraise r.

(** [for x in l: body x]. *)
Fixpoint for_ {X : Type} (l : list X) (body : X -> prog unit) : prog unit :=
  match l with
  | [] => Ret tt
  | x :: l' => body x ;;; for_ l' body
  end.

(** ** The loader *)

Definition MMASH_URL : string := "https://physionet.org/files/mmash/1.0.0/MMASH.zip".
Definition MMASH_FOLDER : string := "MMASH".
Definition ALL_TABLES : list string :=
  ["sleep"; "activity"; "user_info"; "questionnaire"; "rr"].

(** The attributes of the instance the methods read: [tables] as the
    constructor sets it, [root] as the base class sets it, [dataset_folder]. *)
Record MMASHDataset : Type := {
  tables : list string;
  root : string;
  dataset_folder : string
}.

(** The loop of [download_and_extract] over the chunks of the body. *)
Definition write_chunks (content : list bytes) : prog unit :=
  for_ content (fun data =>
    size <- call (FileWrite data) ;;
    call (TqdmUpdate size)).

(** [download_and_extract]: stream the archive into [mmash.zip], expand it
    into the dataset folder and remove it. *)
Definition download_and_extract (dataset_folder : string) : prog unit :=
  call (OsMakedirs dataset_folder true) ;;;
  let zip_path := os_path_join dataset_folder "mmash.zip" in
  response <- call (RequestsGet MMASH_URL true) ;;
  total <- match headers_get (headers response) "content-length" with
           | None => Ret 0%Z                        (* int(0) *)
           | Some s =>
               match Py.int_of_str s with
               | Some n => Ret n
               | None =>
                   Throw (ValueError ("invalid literal for int() with base 10: "
                                      +:+ Py.repr_str s))
               end
           end ;;
  with_ (call (OpenWb zip_path)) (fun _ => call FileClose) (fun file =>
    with_ (call (TqdmOpen "Downloading MMASH" total)) (fun _ => call TqdmClose)
      (fun bar =>
         content <- call (IterContent 1024) ;;
         write_chunks (fst content) ;;;
         match snd content with
         | Some e => Throw e
         | None => Ret tt
         end)) ;;;
  with_ (call (ZipOpen zip_path)) (fun _ => call ZipClose) (fun zip_ref =>
    call (ZipExtractall dataset_folder)) ;;;
  call (OsRemove zip_path).

(** One of the five blocks of the [try] of [load_data]:
    [if key in self.tables: t = pd.read_csv(join(user_path, file));
     t["user_id"] = user_id; record[key] = t]. *)
Definition read_table (tables : list string) (user_path user_id : string)
    (key file : string) (record : record_t) : prog record_t :=
  if Py.contains key tables then
    df <- call (PdReadCsv (os_path_join user_path file)) ;;
    let df := df_setitem df "user_id" (VStr user_id) in
    Ret (<[key := df]> record)
  else Ret record.

(** The body of the [try]: the five blocks in source order. *)
Definition read_tables (tables : list string) (user_path user_id : string)
    (record : record_t) : prog record_t :=
  record <- read_table tables user_path user_id "sleep" "sleep.csv" record ;;
  record <- read_table tables user_path user_id "activity" "Activity.csv" record ;;
  record <- read_table tables user_path user_id "user_info" "user_info.csv" record ;;
  record <- read_table tables user_path user_id "questionnaire" "questionnaire.csv" record ;;
  record <- read_table tables user_path user_id "rr" "RR.csv" record ;;
  Ret record.

(** The loop body of [load_data] from the [try] on, for an entry that is a
    directory: the record is added unless a file was not found. *)
Definition assemble (tables : list string) (user_path user_id : string) : prog unit :=
  got <- try_except (record <- read_tables tables user_path user_id ∅ ;;
                     Ret (Some record))
                    is_FileNotFoundError
                    (Ret None) ;;
  match got with
  | None => Ret tt
  | Some record => call (AddSample user_id user_id record)
  end.

(** The body of the loop of [load_data] for one entry of the listing; both
    [continue]s end it with nothing added. *)
Definition load_user (tables : list string) (root_dir user_id : string) : prog unit :=
  let user_path := os_path_join root_dir user_id in
  isdir <- call (OsPathIsdir user_path) ;;
  if negb isdir then Ret tt
  else assemble tables user_path user_id.

Definition load_data (self : MMASHDataset) : prog unit :=
  let root_dir := os_path_join (dataset_folder self) "MMASH" in
  names <- call (OsListdir root_dir) ;;
  let users := Py.sorted names in
  for_ users (load_user (tables self) root_dir).

(** The validation loop of the constructor: the first name that is not one
    of [ALL_TABLES] raises. *)
Definition validate (tables : list string) : prog unit :=
  for_ tables (fun table =>
    if negb (Py.contains table ALL_TABLES)
    then Throw (ValueError ("Unsupported table: " +:+ table
                            +:+ ". Must be one of " +:+ Py.repr_list ALL_TABLES))
    else Ret tt).

(** The constructor; [tables_arg] is [None] when the argument is left out. *)
Definition __init__ (root_arg : string) (tables_arg : option (list string))
    (dev : bool) (kwargs : Kwargs) : prog MMASHDataset :=
  match tables_arg with
  | None =>
      Throw (ValueError ("`tables` must be specified from "
                         +:+ Py.repr_list ALL_TABLES))
  | Some tables =>
      validate tables ;;;
      root <- call (SuperInit "MMASH" root_arg tables dev kwargs) ;;
      let dataset_folder := os_path_join root MMASH_FOLDER in
      present <- call (OsPathExists (os_path_join dataset_folder "MMASH")) ;;
      (if negb present then download_and_extract dataset_folder else Ret tt) ;;;
      let self := {| tables := tables; root := root;
                     dataset_folder := dataset_folder |} in
      load_data self ;;;
      Ret self
  end.

(** ** Running a program *)

(** One logged call: the event and what the environment answered. *)
Inductive entry : Type :=
| Log {X : Type} (ev : event X) (ans : result X).

(** An environment with state [S]. *)
Record handler (S : Type) : Type := {
  handle : forall X : Type, event X -> S -> result X * S
}.
Arguments handle {S} h {X} ev s.

(** The log, the final state and the outcome of [p] on machine [h] from
    state [s]. *)
Fixpoint run {S A : Type} (h : handler S) (p : prog A) (s : S)
  : list entry * S * result A :=
  match p with
  | Ret a => ([], s, Ok a)
  | Throw e => ([], s, Exc e)
  | Vis ev k =>
      let '(ans, s1) := handle h ev s in
      let '(tr, s2, r) := run h (k ans) s1 in
      (Log ev ans :: tr, s2, r)
  end.

Definition trace_of {S A : Type} (x : list entry * S * result A) : list entry := x.1.1.
Definition state_of {S A : Type} (x : list entry * S * result A) : S := x.1.2.
Definition result_of {S A : Type} (x : list entry * S * result A) : result A := x.2.

(** ** A machine whose file system the loader only reads *)

Inductive file_kind : Type := RegularFile | Directory.

(** What lies at a path: nothing, a file or directory, or a symbolic link
    with what it resolves to ([None] for a dangling link). *)
Inductive fs_entry : Type :=
| Missing
| Plain (k : file_kind)
| Symlink (target : option file_kind).

Record FileSystem : Type := {
  lstat : string -> fs_entry;
  listdir : string -> result (list string);
  read_csv : string -> result DataFrame
}.

(** [os.path.exists] and [os.path.isdir] follow symbolic links. *)
Definition path_exists (fs : FileSystem) (p : string) : bool :=
  match lstat fs p with
  | Missing | Symlink None => false
  | Plain _ | Symlink (Some _) => true
  end.

Definition path_isdir (fs : FileSystem) (p : string) : bool :=
  match lstat fs p with
  | Plain Directory | Symlink (Some Directory) => true
  | _ => false
  end.

(** What the base class stores: the samples in the order they were added. *)
Definition sample : Type := string * string * record_t.

(** Modelled from the spec: the constructor of the base class BaseDataset,
    which is not part of the sources ("construct with dataset name, root,
    tables, dev flag and extra options"); it keeps the root it is given, which
    the loader reads back as [self.root]. *)
Definition base_init (root_arg : string) : string := root_arg.

(** Modelled from the spec: [add_sample] of the base class BaseDataset, which
    is not part of the sources ("add one record under a given patient id and
    visit id"); the sample is appended to those already stored. *)
Definition base_add_sample (st : list sample) (patient_id visit_id : string)
    (record : record_t) : list sample :=
  st ++ [(patient_id, visit_id, record)].

(** The answers of a machine with file system [fs], which is read-only and
    has no network: what would change the file system fails. *)
Definition unavailable {X : Type} : result X :=
  Exc (OtherError "OSError" "read-only file system, network unreachable").

(** What each call is answered with on that machine; the state is the
    samples stored so far. *)
Definition static_handle (fs : FileSystem) (X : Type) (ev : event X)
    (st : list sample) : result X * list sample :=
  match ev in event X return result X * list sample with
  | SuperInit _ root_arg _ _ _ => (Ok (base_init root_arg), st)
  | AddSample p v r => (Ok tt, base_add_sample st p v r)
  | OsPathExists p => (Ok (path_exists fs p), st)
  | OsPathIsdir p => (Ok (path_isdir fs p), st)
  | OsListdir p => (listdir fs p, st)
  | PdReadCsv p => (read_csv fs p, st)
  | _ => (unavailable, st)
  end.

Definition static (fs : FileSystem) : handler (list sample) :=
  {| handle := static_handle fs |}.

(** The samples a run hands to the base class, read off its log. *)
Fixpoint added (tr : list entry) : list sample :=
  match tr with
  | [] => []
  | Log ev ans :: tr' =>
      match ev, ans with
      | AddSample p v r, Ok _ => (p, v, r) :: added tr'
      | _, _ => added tr'
      end
  end.

(** The calls of [pd.read_csv] in a log, in order: the path and the answer. *)
Fixpoint csv_log (tr : list entry) : list (string * result DataFrame) :=
  match tr with
  | [] => []
  | Log ev ans :: tr' =>
      match ev in event X return result X -> list (string * result DataFrame) with
      | PdReadCsv p => fun ans => (p, ans) :: csv_log tr'
      | _ => fun _ => csv_log tr'
      end ans
  end.

(** The paths a run reads with [pd.read_csv], in order. *)
Definition reads (tr : list entry) : list string := map fst (csv_log tr).

(** Whether a call belongs to acquisition: network, writing the archive,
    extracting it, progress bar. *)
Definition is_acquisition {X : Type} (ev : event X) : bool :=
  match ev with
  | OsMakedirs _ _ | OsRemove _ | RequestsGet _ _ | IterContent _
  | OpenWb _ | FileWrite _ | FileClose
  | TqdmOpen _ _ | TqdmUpdate _ | TqdmClose
  | ZipOpen _ | ZipExtractall _ | ZipClose => true
  | _ => false
  end.

(** A test on events, applied to a logged call. *)
Definition entry_is (f : forall X, event X -> bool) (e : entry) : bool :=
  match e with Log ev _ => f _ ev end.

(** The (table name, file name) pairs of the five blocks of [load_data], in
    source order. *)
Definition TABLE_FILES : list (string * string) :=
  [("sleep", "sleep.csv"); ("activity", "Activity.csv");
   ("user_info", "user_info.csv"); ("questionnaire", "questionnaire.csv");
   ("rr", "RR.csv")].

(** The file [load_data] reads for a table name. *)
Definition source_file (table : string) : option string :=
  snd <$> find (fun kf => String.eqb (fst kf) table) TABLE_FILES.

(** The blocks that run for a given request, in order. *)
Definition requested (tables : list string) : list (string * string) :=
  List.filter (fun kf => Py.contains (fst kf) tables) TABLE_FILES.

(** A table's source file is absent for a subject when reading it raises
    [FileNotFoundError]. *)
Definition file_absent (fs : FileSystem) (user_path file : string) : bool :=
  match read_csv fs (os_path_join user_path file) with
  | Exc e => is_FileNotFoundError e
  | Ok _ => false
  end.

Definition table_present (fs : FileSystem) (user_path table : string) : bool :=
  match source_file table with
  | Some file => negb (file_absent fs user_path file)
  | None => false
  end.

(** The first read of a subject that fails, if any, going through the
    requested tables in order. *)
Fixpoint first_failure (fs : FileSystem) (user_path : string)
    (files : list (string * string)) : option exn :=
  match files with
  | [] => None
  | (_, file) :: files' =>
      match read_csv fs (os_path_join user_path file) with
      | Exc e => Some e
      | Ok _ => first_failure fs user_path files'
      end
  end.

(** The entries of a listing for which the loop of [load_data] goes past its
    directory check, in the order the loop visits them. *)
Definition subjects (fs : FileSystem) (root_dir : string) (names : list string)
  : list string :=
  List.filter (fun u => path_isdir fs (os_path_join root_dir u)) (Py.sorted names).

(** A server that answers the download: the response, the chunks of its body
    and the failure that ends the stream, if any. *)
Record Download : Type := {
  response : Response;
  chunks : list bytes;
  failure : option exn
}.

(** A machine on which acquisition goes through: the state is what has been
    written to the archive file so far. *)
Definition server_handle (d : Download) (X : Type) (ev : event X)
    (written : list bytes) : result X * list bytes :=
  match ev in event X return result X * list bytes with
  | RequestsGet _ _ => (Ok (response d), written)
  | IterContent _ => (Ok (chunks d, failure d), written)
  | OpenWb _ => (Ok tt, [])
  | FileWrite data => (Ok (length data), written ++ [data])
  | OsMakedirs _ _ | OsRemove _ | FileClose
  | TqdmOpen _ _ | TqdmUpdate _ | TqdmClose
  | ZipOpen _ | ZipExtractall _ | ZipClose => (Ok tt, written)
  | _ => (unavailable, written)
  end.

Definition server (d : Download) : handler (list bytes) :=
  {| handle := server_handle d |}.

(** The archive files a run opens for writing. *)
Fixpoint opened (tr : list entry) : list string :=
  match tr with
  | [] => []
  | Log ev _ :: tr' =>
      match ev with
      | OpenWb p => p :: opened tr'
      | _ => opened tr'
      end
  end.

(** ** Programs whose calls all satisfy a test *)

Inductive only (P : forall X, event X -> bool) {A : Type} : prog A -> Prop :=
| only_Ret a : only P (Ret a)
| only_Throw e : only P (Throw e)
| only_Vis {X} (ev : event X) k :
    P X ev = true -> (forall r, only P (k r)) -> only P (Vis ev k).

(** The error raised for an unsupported table name, with its message as
    Python prints it. *)
Definition unsupported (table : string) : exn :=
  ValueError ("Unsupported table: " +:+ table +:+
    ". Must be one of ['sleep', 'activity', 'user_info', 'questionnaire', 'rr']").

(** The calls that are not part of acquisition. *)
Definition not_acquisition (X : Type) (ev : event X) : bool :=
  negb (is_acquisition ev).


(** The blocks of the [try] written as a loop over their (table, file) pairs;
    [read_tables] is this loop over [TABLE_FILES] (lemma [read_tables_files]). *)
Fixpoint read_files (tables : list string) (user_path user_id : string)
    (files : list (string * string)) (record : record_t) : prog record_t :=
  match files with
  | [] => Ret record
  | (key, file) :: files' =>
      record <- read_table tables user_path user_id key file record ;;
      read_files tables user_path user_id files' record
  end.

(** The blocks among [files] that run for a given request. *)
Definition requested_in (tables : list string) (files : list (string * string))
  : list (string * string) :=
  List.filter (fun kf => Py.contains (fst kf) tables) files.

(** The path of a subject's file. *)
Definition path_in (user_path : string) (kf : string * string) : string :=
  os_path_join user_path (snd kf).

(** What a record holds after the blocks [files] ran on [record0], for a run
    whose reads are [log]: an entry under every requested name of [files]; each
    entry is one of [record0] or a table read from the subject's file for that
    name that went through [df["user_id"] = user_id]. *)
Definition read_post (tables : list string) (user_path user_id : string)
    (files : list (string * string)) (log : list (string * result DataFrame))
    (record0 record : record_t) : Prop :=
  (forall t, In t (map fst files) -> In t tables -> is_Some (record !! t))
  /\ (forall t df, record !! t = Some df ->
        record0 !! t = Some df
        \/ (In t tables
            /\ exists file src,
                 In (t, file) files
                 /\ In (os_path_join user_path file, Ok src) log
                 /\ df = df_setitem src "user_id" (VStr user_id)))
  /\ (forall t, is_Some (record0 !! t) -> is_Some (record !! t)).

(** ** A small data set to try the loader on *)

(** A table whose file already has a [user_id] column. *)
Definition demo_table : DataFrame :=
  {| df_len := 2;
     df_columns := [("user_id", [VStr "x"; VStr "y"]); ("hr", [VInt 60; VInt 62])] |}.

(** Under [data/MMASH/MMASH]: a plain file, [user_1] and [user_3] with their
    five files, [user_2] without [RR.csv], [user_4] whose [sleep.csv] is
    empty (pandas raises EmptyDataError) and [user_5] with its five files. *)
Definition demo_fs : FileSystem :=
  {| lstat p :=
       if Py.contains p ["data/MMASH/MMASH"; "data/MMASH/MMASH/user_1";
                         "data/MMASH/MMASH/user_2"; "data/MMASH/MMASH/user_3";
                         "data/MMASH/MMASH/user_4"; "data/MMASH/MMASH/user_5"]
       then Plain Directory
       else if String.eqb p "data/MMASH/MMASH/README.txt" then Plain RegularFile
       else Missing;
     listdir p :=
       if String.eqb p "data/MMASH/MMASH"
       then Ok ["user_3"; "user_1"; "README.txt"; "user_5"; "user_2"; "user_4"]
       else Exc (FileNotFoundError p);
     read_csv p :=
       if String.eqb p "data/MMASH/MMASH/user_2/RR.csv" then Exc (FileNotFoundError p)
       else if String.eqb p "data/MMASH/MMASH/user_4/sleep.csv"
       then Exc (OtherError "EmptyDataError" "No columns to parse from file")
       else if String.prefix "data/MMASH/MMASH/user_" p then Ok demo_table
       else Exc (FileNotFoundError p) |}.

Definition demo_self (tables : list string) : MMASHDataset :=
  {| tables := tables; root := "data"; dataset_folder := "data/MMASH" |}.

(** A listing whose only entry is a symbolic link to a directory of tables. *)
Definition link_fs : FileSystem :=
  {| lstat p :=
       if String.eqb p "data/MMASH/MMASH" then Plain Directory
       else if String.eqb p "data/MMASH/MMASH/latest" then Symlink (Some Directory)
       else Missing;
     listdir p :=
       if String.eqb p "data/MMASH/MMASH" then Ok ["latest"]
       else Exc (FileNotFoundError p);
     read_csv p :=
       if String.prefix "data/MMASH/MMASH/latest/" p then Ok demo_table
       else Exc (FileNotFoundError p) |}.

(** The order of [sorted] on strings. *)
Definition str_le (a b : string) : Prop := String.leb a b = true.

(** The rounds of the loop of [load_data] for a list of entries. *)
Definition load_users (tables : list string) (root_dir : string)
    (users : list string) : prog unit :=
  for_ users (load_user tables root_dir).

(** Assembly over a list of subjects, without the directory check. *)
Definition assemble_all (tables : list string) (root_dir : string)
    (subj : list string) : prog unit :=
  for_ subj (fun u => assemble tables (os_path_join root_dir u) u).

(** The totals the progress bars of a run are opened with. *)
Fixpoint progress_totals (tr : list entry) : list Z :=
  match tr with
  | [] => []
  | Log ev _ :: tr' =>
      match ev with
      | TqdmOpen _ total => total :: progress_totals tr'
      | _ => progress_totals tr'
      end
  end.

(** A server whose Content-Length header is not a number. *)
Definition bad_length : Download :=
  {| response := {| status_code := 200;
                    headers := <["content-length" := "abc"]>
                                 {["content-type" := "application/zip"]} |};
     chunks := [[x50; x4b]; [x03; x04]];
     failure := None |}.

(** A server whose Content-Length header is a number, but not the size of
    the body. *)
Definition wrong_length : Download :=
  {| response := {| status_code := 200;
                    headers := {["content-length" := "999"]} |};
     chunks := [[x50; x4b]; [x03; x04]];
     failure := None |}.

(** ** Further observations on logs *)

(** The patient ids of stored samples, in order. *)
Definition patients (st : list sample) : list string := map (fun x => x.1.1) st.

(** The HTTP requests of a log: URL and [stream] flag. *)
Fixpoint gets (tr : list entry) : list (string * bool) :=
  match tr with
  | [] => []
  | Log ev _ :: tr' =>
      match ev with
      | RequestsGet url stream => (url, stream) :: gets tr'
      | _ => gets tr'
      end
  end.

(** The destinations of the extractions of a log. *)
Fixpoint extracted (tr : list entry) : list string :=
  match tr with
  | [] => []
  | Log ev _ :: tr' =>
      match ev with
      | ZipExtractall dest => dest :: extracted tr'
      | _ => extracted tr'
      end
  end.

(** The paths given to [os.remove] in a log. *)
Fixpoint removed (tr : list entry) : list string :=
  match tr with
  | [] => []
  | Log ev _ :: tr' =>
      match ev with
      | OsRemove p => p :: removed tr'
      | _ => removed tr'
      end
  end.

(** The amounts the progress bar is advanced by in a log. *)
Fixpoint updates (tr : list entry) : list nat :=
  match tr with
  | [] => []
  | Log ev _ :: tr' =>
      match ev with
      | TqdmUpdate n => n :: updates tr'
      | _ => updates tr'
      end
  end.

(** The calls other than [requests.get]. *)
Definition not_get (X : Type) (ev : event X) : bool :=
  match ev with RequestsGet _ _ => false | _ => true end.

(** The calls of acquisition, as a test on any event. *)
Definition acquisition (X : Type) (ev : event X) : bool := is_acquisition ev.

(** Whether a directory entry has every requested file readable. *)
Definition complete (fs : FileSystem) (tables : list string) (root_dir u : string)
  : bool :=
  match first_failure fs (os_path_join root_dir u) (requested tables) with
  | None => true
  | Some _ => false
  end.

(** How often a log calls an event that [f] accepts, and how often such a
    call was answered without an exception. *)
Fixpoint count_calls (f : forall X, event X -> bool) (tr : list entry) : nat :=
  match tr with
  | [] => 0
  | Log ev _ :: tr' => (if f _ ev then 1 else 0) + count_calls f tr'
  end.

Fixpoint count_ok (f : forall X, event X -> bool) (tr : list entry) : nat :=
  match tr with
  | [] => 0
  | Log ev ans :: tr' =>
      match ans with
      | Ok _ => if f _ ev then 1 else 0
      | Exc _ => 0
      end + count_ok f tr'
  end.

(** The calls that acquire and release the archive file, the progress bar and
    the zip reader. *)
Definition opens_file (X : Type) (ev : event X) : bool :=
  match ev with OpenWb _ => true | _ => false end.
Definition closes_file (X : Type) (ev : event X) : bool :=
  match ev with FileClose => true | _ => false end.
Definition opens_bar (X : Type) (ev : event X) : bool :=
  match ev with TqdmOpen _ _ => true | _ => false end.
Definition closes_bar (X : Type) (ev : event X) : bool :=
  match ev with TqdmClose => true | _ => false end.
Definition opens_zip (X : Type) (ev : event X) : bool :=
  match ev with ZipOpen _ => true | _ => false end.
Definition closes_zip (X : Type) (ev : event X) : bool :=
  match ev with ZipClose => true | _ => false end.

(** A program releases what it acquires: on machine [h], from any state, its
    log has as many calls accepted by [c] as calls accepted by [o] that were
    answered without an exception. *)
Definition balanced {S A : Type} (h : handler S) (o c : forall X, event X -> bool)
    (p : prog A) : Prop :=
  forall s, count_calls c (trace_of (run h p s)) = count_ok o (trace_of (run h p s)).

(** ** A machine on which the archive is still to be fetched *)

(** What has been written to the archive file, whether the archive has been
    extracted, and the samples stored. *)
Record install_state : Type := {
  archive : list bytes;
  unpacked : bool;
  stored : list sample
}.

(** The answers of a machine that serves the download [d] and on which the
    file system [fs] is what extraction produces: before extraction nothing
    of [fs] is there. *)
Definition install_handle (d : Download) (fs : FileSystem) (X : Type) (ev : event X)
    (w : install_state) : result X * install_state :=
  match ev in event X return result X * install_state with
  | SuperInit _ root_arg _ _ _ => (Ok (base_init root_arg), w)
  | AddSample p v r =>
      (Ok tt, {| archive := archive w; unpacked := unpacked w;
                 stored := base_add_sample (stored w) p v r |})
  | OsPathExists p => (Ok (unpacked w && path_exists fs p), w)
  | OsPathIsdir p => (Ok (unpacked w && path_isdir fs p), w)
  | OsListdir p =>
      (if unpacked w then listdir fs p else Exc (FileNotFoundError p), w)
  | PdReadCsv p =>
      (if unpacked w then read_csv fs p else Exc (FileNotFoundError p), w)
  | RequestsGet _ _ => (Ok (response d), w)
  | IterContent _ => (Ok (chunks d, failure d), w)
  | OpenWb _ =>
      (Ok tt, {| archive := []; unpacked := unpacked w; stored := stored w |})
  | FileWrite data =>
      (Ok (length data),
       {| archive := archive w ++ [data]; unpacked := unpacked w; stored := stored w |})
  | ZipExtractall _ =>
      (Ok tt, {| archive := archive w; unpacked := true; stored := stored w |})
  | OsMakedirs _ _ => (Ok tt, w)
  | OsRemove _ => (Ok tt, w)
  | FileClose => (Ok tt, w)
  | TqdmOpen _ _ => (Ok tt, w)
  | TqdmUpdate _ => (Ok tt, w)
  | TqdmClose => (Ok tt, w)
  | ZipOpen _ => (Ok tt, w)
  | ZipClose => (Ok tt, w)
  end.

Definition install (d : Download) (fs : FileSystem) : handler install_state :=
  {| handle := install_handle d fs |}.

Definition fresh : install_state :=
  {| archive := []; unpacked := false; stored := [] |}.

(** A machine with file system [fs] whose base class has no [add_sample]. *)
Definition no_add_sample_handle (fs : FileSystem) (X : Type) (ev : event X)
    (st : list sample) : result X * list sample :=
  match ev in event X return result X * list sample with
  | AddSample _ _ _ =>
      (Exc (OtherError "AttributeError"
              "'MMASHDataset' object has no attribute 'add_sample'"), st)
  | ev' => static_handle fs _ ev' st
  end.

Definition no_add_sample (fs : FileSystem) : handler (list sample) :=
  {| handle := no_add_sample_handle fs |}.

(** The sizes the successful [file.write] calls of a log reported. *)
Fixpoint write_reports (tr : list entry) : list nat :=
  match tr with
  | [] => []
  | Log ev ans :: tr' =>
      match ev in event X return result X -> list nat with
      | FileWrite _ => fun ans =>
          match ans with
          | Ok n => n :: write_reports tr'
          | Exc _ => write_reports tr'
          end
      | _ => fun _ => write_reports tr'
      end ans
  end.

(** A program advances the progress bar by what it wrote: on machine [h],
    from any state, the amounts of its log's [bar.update] calls are the sizes
    its successful [file.write] calls reported, in order. *)
Definition reported {S A : Type} (h : handler S) (p : prog A) : Prop :=
  forall s, updates (trace_of (run h p s)) = write_reports (trace_of (run h p s)).

(** The calls other than [file.write] and [bar.update]. *)
Definition not_write_or_update (X : Type) (ev : event X) : bool :=
  match ev with FileWrite _ | TqdmUpdate _ => false | _ => true end.


(** * Properties *)

Example os_path_join_ex :
  os_path_join (os_path_join "data" "MMASH") "MMASH" = "data/MMASH/MMASH"
  /\ os_path_join "data/" "x.csv" = "data/x.csv"
  /\ os_path_join "data" "/abs" = "/abs".
Proof. repeat split. Qed.

Example int_of_str_ex :
  Py.int_of_str " 1_024 " = Some 1024%Z /\ Py.int_of_str "-7" = Some (-7)%Z
  /\ Py.int_of_str "abc" = None /\ Py.int_of_str "" = None
  /\ Py.int_of_str "1__0" = None /\ Py.int_of_str "12_" = None.
Proof. repeat split. Qed.

Example int_of_str_space_ex :
  Py.int_of_str (String (ascii_of_nat 9) "7 ") = Some 7%Z
  /\ Py.int_of_str (String (ascii_of_nat 160) "7") = Some 7%Z
  /\ Py.int_of_str (String (ascii_of_nat 28) "7") = None
  /\ Py.int_of_str (String "7" (String (ascii_of_nat 31) "")) = None.
Proof. repeat split. Qed.

Example sorted_ex :
  Py.sorted ["user_2"; "user_10"; "README"; "user_1"]
  = ["README"; "user_1"; "user_10"; "user_2"].
Proof. reflexivity. Qed.

Section Run.
Context {S : Type} (h : handler S).

Lemma run_bind {A B} (p : prog A) (f : A -> prog B) (s : S) :
  run h (bind p f) s =
  match run h p s with
  | (tr1, s1, Ok a) =>
      match run h (f a) s1 with
      | (tr2, s2, r) => (tr1 ++ tr2, s2, r)
      end
  | (tr1, s1, Exc e) => (tr1, s1, Exc e)
  end.
Proof.
  revert s. induction p as [a|e|X ev k IH]; intros s; simpl.
  - by destruct (run h (f a) s) as [[tr2 s2] r].
  - done.
  - destruct (handle h ev s) as [ans s1]. rewrite IH.
    destruct (run h (k ans) s1) as [[tr1 s2] [a|e]]; [|done].
    by destruct (run h (f a) s2) as [[tr2 s3] r].
Qed.

Lemma run_attempt {A} (p : prog A) (s : S) :
  run h (attempt p) s =
  match run h p s with (tr, s1, r) => (tr, s1, Ok r) end.
Proof.
  revert s. induction p as [a|e|X ev k IH]; intros s; simpl; [done..|].
  destruct (handle h ev s) as [ans s1]. rewrite IH.
  by destruct (run h (k ans) s1) as [[tr s2] r].
Qed.

Lemma run_call {X} (ev : event X) (s : S) :
  run h (call ev) s =
  match handle h ev s with (ans, s1) => ([Log ev ans], s1, ans) end.
Proof.
  unfold call. simpl. destruct (handle h ev s) as [[x|e] s1]; done.
Qed.

Lemma run_for_cons {X} (x : X) (l : list X) (body : X -> prog unit) (s : S) :
  run h (for_ (x :: l) body) s =
  match run h (body x) s with
  | (tr1, s1, Ok _) =>
      match run h (for_ l body) s1 with
      | (tr2, s2, r) => (tr1 ++ tr2, s2, r)
      end
  | (tr1, s1, Exc e) => (tr1, s1, Exc e)
  end.
Proof. simpl. apply run_bind. Qed.

Lemma run_for_app {X} (l1 l2 : list X) (body : X -> prog unit) (s : S) :
  run h (for_ (l1 ++ l2) body) s =
  match run h (for_ l1 body) s with
  | (tr1, s1, Ok _) =>
      match run h (for_ l2 body) s1 with
      | (tr2, s2, r) => (tr1 ++ tr2, s2, r)
      end
  | (tr1, s1, Exc e) => (tr1, s1, Exc e)
  end.
Proof.
  revert s. induction l1 as [|x l1 IH]; intros s.
  - simpl. by destruct (run h (for_ l2 body) s) as [[tr2 s2] r].
  - rewrite <- app_comm_cons, !run_for_cons.
    destruct (run h (body x) s) as [[tr0 s0] [[]|e]]; [|done].
    rewrite IH.
    destruct (run h (for_ l1 body) s0) as [[tr1 s1] [[]|e]]; [|done].
    destruct (run h (for_ l2 body) s1) as [[tr2 s2] r].
    by rewrite app_assoc.
Qed.

Lemma only_run (P : forall X, event X -> bool) {A} (p : prog A) (s : S) :
  only P p -> forallb (entry_is P) (trace_of (run h p s)) = true.
Proof.
  intros Hp. revert s. induction Hp as [a|e|X ev k HP _ IH]; intros s; simpl; [done..|].
  destruct (handle h ev s) as [ans s1]. specialize (IH ans s1).
  destruct (run h (k ans) s1) as [[tr s2] r]. unfold trace_of in *. simpl in *.
  by rewrite HP, IH.
Qed.

End Run.

(** ** Validation of the table argument *)

Lemma contains_In (x : string) (l : list string) :
  Py.contains x l = true <-> In x l.
Proof.
  unfold Py.contains. rewrite existsb_exists. split.
  - intros (y & Hy & Heq). apply String.eqb_eq in Heq. by subst.
  - intros Hx. exists x. split; [done|]. apply String.eqb_refl.
Qed.

Lemma contains_not_In (x : string) (l : list string) :
  Py.contains x l = false <-> ~ In x l.
Proof.
  rewrite <- contains_In. by destruct (Py.contains x l).
Qed.

Lemma for_cons {X} (x : X) (l : list X) (body : X -> prog unit) :
  for_ (x :: l) body = bind (body x) (fun _ => for_ l body).
Proof. reflexivity. Qed.

Lemma validate_supported (tables : list string) :
  Forall (fun t => In t ALL_TABLES) tables -> validate tables = Ret tt.
Proof.
  induction 1 as [|t l Ht _ IH]; [done|].
  apply contains_In in Ht. unfold validate in *. by rewrite for_cons, Ht.
Qed.

Lemma validate_unsupported (pre post : list string) (t : string) :
  Forall (fun x => In x ALL_TABLES) pre -> ~ In t ALL_TABLES ->
  validate (pre ++ t :: post) = Throw (unsupported t).
Proof.
  intros Hpre Ht. induction Hpre as [|x l Hx _ IH].
  - apply contains_not_In in Ht. unfold validate. simpl app. by rewrite for_cons, Ht.
  - apply contains_In in Hx. unfold validate in *.
    by rewrite <- app_comm_cons, for_cons, Hx.
Qed.

Lemma validate_cases (tables : list string) :
  validate tables = Ret tt \/ exists e, validate tables = Throw e.
Proof.
  induction tables as [|t l IH]; [by left|].
  unfold validate in *. rewrite for_cons.
  destruct (Py.contains t ALL_TABLES); simpl; [done|]. right. eauto.
Qed.

(** C3, as the code has it: when the table argument is left out ([None]),
    construction raises a ValueError that names the allowed set, and it does
    so before any call leaves the module (the program is the raise alone, so
    its log is empty on every machine).  An empty list is not rejected: the
    validation loop has nothing to check and the first thing the constructor
    does is to construct the base class. *)
Theorem C3_missing_tables_rejected_empty_list_accepted
    (root_arg : string) (dev : bool) (kwargs : Kwargs) :
  __init__ root_arg None dev kwargs =
    Throw (ValueError
      "`tables` must be specified from ['sleep', 'activity', 'user_info', 'questionnaire', 'rr']")
  /\ (forall (S : Type) (h : handler S) (s : S),
        trace_of (run h (__init__ root_arg None dev kwargs) s) = [])
  /\ exists k, __init__ root_arg (Some []) dev kwargs =
               Vis (SuperInit "MMASH" root_arg [] dev kwargs) k.
Proof.
  split; [done|]. split; [done|]. eexists. reflexivity.
Qed.

(** C5: a table list whose first unsupported name is [t] (the names before it
    are supported, whatever follows) makes construction raise the ValueError
    "Unsupported table: t. Must be one of [the five names]", and nothing is
    called before: the program is the raise alone, so no file system or
    network call is logged on any machine. *)
Theorem C5_unsupported_table_rejected_before_io
    (root_arg : string) (pre post : list string) (t : string)
    (dev : bool) (kwargs : Kwargs) :
  Forall (fun x => In x ALL_TABLES) pre ->
  ~ In t ALL_TABLES ->
  __init__ root_arg (Some (pre ++ t :: post)) dev kwargs =
    Throw (ValueError ("Unsupported table: " +:+ t +:+
      ". Must be one of ['sleep', 'activity', 'user_info', 'questionnaire', 'rr']"))
  /\ forall (S : Type) (h : handler S) (s : S),
       run h (__init__ root_arg (Some (pre ++ t :: post)) dev kwargs) s =
       ([], s, Exc (unsupported t)).
Proof.
  intros Hpre Ht.
  assert (__init__ root_arg (Some (pre ++ t :: post)) dev kwargs
          = Throw (unsupported t)) as ->; [|done].
  unfold __init__.
  by rewrite (validate_unsupported pre post t Hpre Ht).
Qed.

Lemma C5_witness :
  exists msg,
    __init__ "data" (Some (["sleep"] ++ "heart" :: ["rr"; "steps"])) false []
    = Throw (ValueError msg).
Proof.
  eexists.
  refine (proj1 (C5_unsupported_table_rejected_before_io
                   "data" ["sleep"] ["rr"; "steps"] "heart" false [] _ _)).
  - repeat constructor.
  - vm_compute. intros H. repeat (destruct H as [H|H]; [discriminate H|]). exact H.
Defined.

(** ** Which calls a program can make *)

Section Only.
Context (P : forall X, event X -> bool).

Lemma only_bind {A B} (p : prog A) (f : A -> prog B) :
  only P p -> (forall a, only P (f a)) -> only P (bind p f).
Proof.
  intros Hp Hf. induction Hp as [a|e|X ev k HP _ IH]; simpl.
  - apply Hf.
  - constructor.
  - constructor; [done|]. intros r. apply IH.
Qed.

Lemma only_attempt {A} (p : prog A) : only P p -> only P (attempt p).
Proof.
  induction 1 as [a|e|X ev k HP _ IH]; simpl; constructor; done.
Qed.

Lemma only_call {X} (ev : event X) : P X ev = true -> only P (call ev).
Proof.
  intros HP. constructor; [done|]. intros [x|e]; constructor.
Qed.

Lemma only_reraise {A} (r : result A) : only P (reraise r).
Proof. destruct r; constructor. Qed.

Lemma only_for {X} (l : list X) (body : X -> prog unit) :
  (forall x, only P (body x)) -> only P (for_ l body).
Proof.
  intros Hb. induction l as [|x l IH]; simpl; [constructor|].
  apply only_bind; [apply Hb|done].
Qed.

Lemma only_try_except {A} (p : prog A) (catches : exn -> bool) (hd : prog A) :
  only P p -> only P hd -> only P (try_except p catches hd).
Proof.
  intros Hp Hh. unfold try_except. apply only_bind; [by apply only_attempt|].
  intros [a|e]; [constructor|]. destruct (catches e); [done|constructor].
Qed.

Lemma only_with {R A} (enter : prog R) (exit : R -> prog unit) (body : R -> prog A) :
  only P enter -> (forall x, only P (exit x)) -> (forall x, only P (body x)) ->
  only P (with_ enter exit body).
Proof.
  intros He Hx Hb. unfold with_. apply only_bind; [done|]. intros x.
  apply only_bind; [by apply only_attempt|]. intros r.
  apply only_bind; [done|]. intros _. apply only_reraise.
Qed.

End Only.

Lemma only_read_table (P : forall X, event X -> bool)
    tables user_path user_id key file record :
  P _ (PdReadCsv (os_path_join user_path file)) = true ->
  only P (read_table tables user_path user_id key file record).
Proof.
  intros HP. unfold read_table. destruct (Py.contains key tables); [|constructor].
  apply only_bind; [by apply only_call|]. intros df. constructor.
Qed.

Lemma only_load_data (P : forall X, event X -> bool) self :
  (forall p, P _ (OsListdir p) = true) ->
  (forall p, P _ (OsPathIsdir p) = true) ->
  (forall p, P _ (PdReadCsv p) = true) ->
  (forall p v r, P _ (AddSample p v r) = true) ->
  only P (load_data self).
Proof.
  intros Hl Hd Hr Ha. unfold load_data.
  apply only_bind; [by apply only_call|]. intros names.
  apply only_for. intros u. unfold load_user.
  apply only_bind; [by apply only_call|]. intros isdir.
  destruct (negb isdir); [constructor|]. unfold assemble.
  apply only_bind.
  - apply only_try_except; [|constructor].
    apply only_bind; [|intros; constructor].
    unfold read_tables.
    repeat (apply only_bind; [by apply only_read_table|]; intros ?).
    constructor.
  - intros [r|]; [by apply only_call|constructor].
Qed.

Lemma load_data_not_acquisition self : only not_acquisition (load_data self).
Proof. by apply only_load_data. Qed.

(** ** Acquisition *)

(** C6: on any machine, for any table list, if the base class answers the
    construction with the root [root] and the file system then reports that
    [root/MMASH/MMASH] exists, the constructor makes no acquisition call at
    all: no directory creation, no HTTP request, no write to the archive, no
    extraction, no removal.  (A table list that fails validation makes no call
    of any kind.) *)
Theorem C6_acquisition_skipped_when_extracted
    (S : Type) (h : handler S) (s s1 : S)
    (root_arg root : string) (tables : list string) (dev : bool) (kwargs : Kwargs) :
  handle h (SuperInit "MMASH" root_arg tables dev kwargs) s = (Ok root, s1) ->
  (handle h (OsPathExists (os_path_join (os_path_join root "MMASH") "MMASH")) s1).1
    = Ok true ->
  forallb (entry_is not_acquisition)
    (trace_of (run h (__init__ root_arg (Some tables) dev kwargs) s)) = true.
Proof.
  intros Hinit Hexists. unfold __init__.
  destruct (validate_cases tables) as [-> | [e ->]]; [|done].
  change (bind (Ret tt) ?f) with (f tt). cbv beta.
  rewrite run_bind, run_call, Hinit.
  rewrite run_bind, run_call. unfold MMASH_FOLDER.
  destruct (handle h (OsPathExists _) s1) as [ans s2]. simpl in Hexists. subst ans.
  simpl negb. cbv iota.
  change (bind (Ret tt) ?f) with (f tt). cbv beta.
  rewrite run_bind.
  pose proof (only_run h not_acquisition (load_data
    {| tables := tables; root := root;
       dataset_folder := os_path_join root "MMASH" |}) s2
    (load_data_not_acquisition _)) as Hload.
  destruct (run h (load_data _) s2) as [[tr s3] [[]|e]]; unfold trace_of in *; simpl in *.
  - by rewrite app_nil_r.
  - done.
Qed.

Lemma C6_witness :
  forallb (entry_is not_acquisition)
    (trace_of (run (static demo_fs) (__init__ "data" (Some ["sleep"; "rr"]) false []) []))
  = true.
Proof.
  apply (C6_acquisition_skipped_when_extracted (list sample) (static demo_fs) [] []
           "data" "data" ["sleep"; "rr"] false []).
  - reflexivity.
  - vm_compute. reflexivity.
Defined.

Lemma added_app (tr1 tr2 : list entry) : added (tr1 ++ tr2) = added tr1 ++ added tr2.
Proof.
  induction tr1 as [|[X ev ans] tr1 IH]; [done|]. simpl.
  destruct ev; try done. destruct ans; simpl; by rewrite ?IH.
Qed.

Lemma csv_log_app (tr1 tr2 : list entry) :
  csv_log (tr1 ++ tr2) = csv_log tr1 ++ csv_log tr2.
Proof.
  induction tr1 as [|[X ev ans] tr1 IH]; [done|]. simpl.
  destruct ev; simpl; by rewrite ?IH.
Qed.

Lemma reads_app (tr1 tr2 : list entry) : reads (tr1 ++ tr2) = reads tr1 ++ reads tr2.
Proof. unfold reads. by rewrite csv_log_app, map_app. Qed.



(** ** Reading the tables of one subject *)

Lemma read_tables_files tables user_path user_id record :
  read_tables tables user_path user_id record
  = read_files tables user_path user_id TABLE_FILES record.
Proof. reflexivity. Qed.

Lemma requested_in_TABLE_FILES tables : requested tables = requested_in tables TABLE_FILES.
Proof. reflexivity. Qed.

Section ReadAnywhere.
Context {S : Type} (h : handler S).
Context (tables : list string) (user_path user_id : string).

Lemma run_read_table key file (record : record_t) (s : S) :
  run h (read_table tables user_path user_id key file record) s =
  if Py.contains key tables then
    match handle h (PdReadCsv (os_path_join user_path file)) s with
    | (Ok df, s1) =>
        ([Log (PdReadCsv (os_path_join user_path file)) (Ok df)], s1,
         Ok (<[key := df_setitem df "user_id" (VStr user_id)]> record))
    | (Exc e, s1) =>
        ([Log (PdReadCsv (os_path_join user_path file)) (Exc e)], s1, Exc e)
    end
  else ([], s, Ok record).
Proof.
  unfold read_table. destruct (Py.contains key tables); [|done].
  rewrite run_bind, run_call.
  by destruct (handle h (PdReadCsv _) s) as [[df|e] s1].
Qed.

Lemma run_read_files files (record0 : record_t) (s : S) :
  match run h (read_files tables user_path user_id files record0) s with
  | (tr, _, r) =>
      added tr = []
      /\ reads tr `prefix_of` map (path_in user_path) (requested_in tables files)
      /\ match r with
         | Ok record =>
             reads tr = map (path_in user_path) (requested_in tables files)
             /\ read_post tables user_path user_id files (csv_log tr) record0 record
         | Exc _ => True
         end
  end.
Proof.
  revert record0 s. induction files as [|[key file] files IH]; intros record0 s.
  - simpl. repeat split; try done; auto.
  - cbn [read_files]. rewrite run_bind, run_read_table.
    unfold requested_in, reads in *. cbn [List.filter fst].
    destruct (Py.contains key tables) eqn:Hkey.
    + destruct (handle h (PdReadCsv _) s) as [[df|e] s1].
      * specialize (IH (<[key := df_setitem df "user_id" (VStr user_id)]> record0) s1).
        destruct (run h (read_files _ _ _ files _) s1) as [[tr s2] r].
        destruct IH as (Hadd & Hpre & Hr). cbn [app added csv_log map path_in snd fst].
        split; [done|]. split; [by apply prefix_cons|].
        destruct r as [record|e]; [|done].
        destruct Hr as (Hreads & Hin & Hfrom & Hkeep).
        split; [by rewrite Hreads|]. split; [|split].
        -- intros t [<-|Ht] Hreq.
           ++ apply Hkeep. rewrite lookup_insert_eq. eauto.
           ++ by apply Hin.
        -- intros t df' Hl.
           destruct (Hfrom t df' Hl) as [H0|(Hreq & f & src & Hf & Hlog & ->)].
           ++ destruct (decide (key = t)) as [<-|Hne].
              ** rewrite lookup_insert_eq in H0. injection H0 as <-.
                 right. split; [by apply contains_In|].
                 exists file, df. split; [by left|]. split; [by left|done].
              ** rewrite lookup_insert_ne in H0 by done. by left.
           ++ right. split; [done|]. exists f, src.
              split; [by right|]. split; [by right|done].
        -- intros t Ht. apply Hkeep.
           destruct (decide (key = t)) as [<-|Hne].
           ++ rewrite lookup_insert_eq. eauto.
           ++ by rewrite lookup_insert_ne.
      * cbn [added csv_log map path_in snd fst]. split; [done|]. split; [|done].
        by apply prefix_cons, prefix_nil.
    + specialize (IH record0 s).
      destruct (run h (read_files _ _ _ files _) s) as [[tr s2] r].
      destruct IH as (Hadd & Hpre & Hr). cbn [app].
      split; [done|]. split; [done|].
      destruct r as [record|e]; [|done].
      destruct Hr as (Hreads & Hin & Hfrom & Hkeep).
      split; [done|]. split; [|split].
      * intros t [<-|Ht] Hreq.
        -- apply contains_In in Hreq. cbn [fst] in Hreq. congruence.
        -- by apply Hin.
      * intros t df' Hl.
        destruct (Hfrom t df' Hl) as [H0|(Hreq & f & src & Hf & Hlog & ->)].
        -- by left.
        -- right. split; [done|]. exists f, src. split; [by right|done].
      * done.
Qed.

End ReadAnywhere.

Section AssembleAnywhere.
Context {S : Type} (h : handler S).

Lemma run_assemble tables user_path user_id (s : S) :
  run h (assemble tables user_path user_id) s =
  match run h (read_tables tables user_path user_id ∅) s with
  | (tr, s1, Ok record) =>
      match handle h (AddSample user_id user_id record) s1 with
      | (ans, s2) => (tr ++ [Log (AddSample user_id user_id record) ans], s2, ans)
      end
  | (tr, s1, Exc e) =>
      (tr, s1, if is_FileNotFoundError e then Ok tt else Exc e)
  end.
Proof.
  unfold assemble, try_except. rewrite !run_bind, run_attempt, run_bind.
  destruct (run h (read_tables _ _ _ _) s) as [[tr s1] [record|e]]; cbn [run app].
  - rewrite run_call, !app_nil_r.
    by destruct (handle h (AddSample _ _ _) s1) as [[[]|e] s2].
  - destruct (is_FileNotFoundError e); cbn [run app]; by rewrite !app_nil_r.
Qed.

Lemma run_load_user tables root_dir user_id (s : S) :
  run h (load_user tables root_dir user_id) s =
  let user_path := os_path_join root_dir user_id in
  match handle h (OsPathIsdir user_path) s with
  | (Ok true, s1) =>
      match run h (assemble tables user_path user_id) s1 with
      | (tr, s2, r) => (Log (OsPathIsdir user_path) (Ok true) :: tr, s2, r)
      end
  | (ans, s1) =>
      ([Log (OsPathIsdir user_path) ans], s1,
       match ans with Ok _ => Ok tt | Exc e => Exc e end)
  end.
Proof.
  unfold load_user. cbv zeta. rewrite run_bind, run_call.
  destruct (handle h (OsPathIsdir _) s) as [[[]|e] s1]; simpl; done.
Qed.

(** Whatever the machine, a sample handed over by [load_user] carries the
    subject as both keys, and its tables are those of the requested names among
    the five, each read from the subject's file and then put through
    [df["user_id"] = user_id]; the files were read in the order of the blocks. *)
Lemma load_user_added tables root_dir user_id (s : S) p v record :
  In (p, v, record) (added (trace_of (run h (load_user tables root_dir user_id) s))) ->
  p = user_id /\ v = user_id
  /\ read_post tables (os_path_join root_dir user_id) user_id TABLE_FILES
       (csv_log (trace_of (run h (load_user tables root_dir user_id) s))) ∅ record
  /\ reads (trace_of (run h (load_user tables root_dir user_id) s))
     = map (path_in (os_path_join root_dir user_id)) (requested tables).
Proof.
  rewrite run_load_user. cbv zeta.
  destruct (handle h (OsPathIsdir _) s) as [[[]|e] s1]; unfold trace_of; simpl; try done.
  rewrite run_assemble, read_tables_files.
  pose proof (run_read_files h tables (os_path_join root_dir user_id) user_id
                TABLE_FILES ∅ s1) as Hread.
  destruct (run h (read_files _ _ _ _ _) s1) as [[tr s2] [rec|e]].
  - destruct Hread as (Hadd & _ & Hreads & Hpost).
    destruct (handle h (AddSample _ _ _) s2) as [[[]|e] s3]; simpl;
      rewrite added_app, Hadd; simpl; [|done].
    intros [[= <- <- <-]|[]].
    change (csv_log ?t) with (csv_log t) at 1.
    unfold reads in *. cbn [csv_log]. rewrite csv_log_app. simpl. rewrite app_nil_r.
    done.
  - destruct Hread as (Hadd & _). simpl. by rewrite Hadd.
Qed.

(** A sample or a read in the log of a loop comes from one of its rounds. *)
Lemma for_added {X} (l : list X) (body : X -> prog unit) (s : S) x :
  In x (added (trace_of (run h (for_ l body) s))) ->
  exists u s', In u l /\ In x (added (trace_of (run h (body u) s')))
    /\ incl (csv_log (trace_of (run h (body u) s')))
            (csv_log (trace_of (run h (for_ l body) s))).
Proof.
  revert s. induction l as [|u l IH]; intros s; [done|].
  rewrite run_for_cons.
  destruct (run h (body u) s) as [[tr1 s1] [[]|e]] eqn:Hu.
  - specialize (IH s1).
    destruct (run h (for_ l body) s1) as [[tr2 s2] r]. unfold trace_of in *; simpl in *.
    rewrite added_app, csv_log_app, in_app_iff. intros [Hx|Hx].
    + exists u, s. rewrite Hu. simpl. split; [by left|]. split; [done|].
      apply incl_appl, incl_refl.
    + destruct (IH Hx) as (u' & s' & Hu' & Hx' & Hincl). exists u', s'.
      split; [by right|]. split; [done|]. by apply incl_appr.
  - unfold trace_of; simpl. intros Hx. exists u, s. rewrite Hu. simpl.
    split; [by left|]. split; [done|]. apply incl_refl.
Qed.

Lemma load_data_added self (s : S) p v record :
  In (p, v, record) (added (trace_of (run h (load_data self) s))) ->
  v = p
  /\ read_post (tables self) (os_path_join (os_path_join (dataset_folder self) "MMASH") p)
       p TABLE_FILES (csv_log (trace_of (run h (load_data self) s))) ∅ record.
Proof.
  unfold load_data. cbv zeta. rewrite run_bind, run_call.
  destruct (handle h (OsListdir _) s) as [[names|e] s1]; [|done].
  pose proof (for_added (Py.sorted names)
    (load_user (tables self) (os_path_join (dataset_folder self) "MMASH")) s1
    (p, v, record)) as Hfor.
  destruct (run h (for_ _ _) s1) as [[tr s2] r]. unfold trace_of in *. simpl in *.
  intros Hin. destruct (Hfor Hin) as (u & s' & _ & Hu & Hincl).
  apply load_user_added in Hu as (-> & -> & (Hin1 & Hfrom & Hkeep) & _).
  split; [done|]. split; [done|]. split; [|done].
  intros t df Hl. destruct (Hfrom t df Hl) as [H0|(Hreq & f & src & Hf & Hlog & ->)].
  - by left.
  - right. split; [done|]. exists f, src. split; [done|]. split; [|done].
    by apply Hincl.
Qed.

End AssembleAnywhere.

(** ** The subject column *)

Lemma df_setitem_len src name v : df_len (df_setitem src name v) = df_len src.
Proof. reflexivity. Qed.

Lemma getitem_overwritten (cols : list (string * list value)) name col :
  Forall (fun c => c = col)
    (map snd (List.filter (fun c => String.eqb (fst c) name)
       (map (fun c => if String.eqb (fst c) name then (fst c, col) else c) cols))).
Proof.
  induction cols as [|[n c] cols IH]; [constructor|]. cbn [map fst].
  destruct (String.eqb n name) eqn:Hn; cbn [List.filter fst]; rewrite Hn; [|done].
  by constructor.
Qed.

Lemma getitem_overwritten_nonempty (cols : list (string * list value)) name col :
  Py.contains name (map fst cols) = true ->
  map snd (List.filter (fun c => String.eqb (fst c) name)
     (map (fun c => if String.eqb (fst c) name then (fst c, col) else c) cols)) <> [].
Proof.
  induction cols as [|[n c] cols IH]; [done|]. cbn [map fst Py.contains existsb].
  rewrite String.eqb_sym.
  destruct (String.eqb n name) eqn:Hn; cbn [List.filter fst]; rewrite Hn; [done|].
  apply IH.
Qed.

Lemma getitem_absent (cols : list (string * list value)) name :
  Py.contains name (map fst cols) = false ->
  List.filter (fun c => String.eqb (fst c) name) cols = [].
Proof.
  induction cols as [|[n c] cols IH]; [done|]. cbn [map fst Py.contains existsb List.filter].
  rewrite String.eqb_sym. destruct (String.eqb n name); [done|]. apply IH.
Qed.

(** After [df[name] = v] the table has a column [name], and every column of
    that name holds [v] in each of its rows, whatever [df] held before. *)
Lemma df_setitem_getitem src name v :
  df_getitem (df_setitem src name v) name <> []
  /\ forall col, In col (df_getitem (df_setitem src name v) name) ->
                 col = repeat v (df_len src).
Proof.
  unfold df_getitem, df_setitem. cbn [df_columns df_len].
  destruct (Py.contains name (map fst (df_columns src))) eqn:Hc.
  - split; [by apply getitem_overwritten_nonempty|].
    intros col Hcol.
    pose proof (getitem_overwritten (df_columns src) name (repeat v (df_len src))) as Hall.
    rewrite List.Forall_forall in Hall. by apply Hall.
  - rewrite List.filter_app, (getitem_absent _ _ Hc). cbn [app List.filter fst].
    rewrite String.eqb_refl. cbn [map snd]. split; [done|].
    by intros col [<-|[]].
Qed.

(** C8: on any machine, for every sample [(p, v, record)] the load hands to
    the base class and every table [df] in [record] under a name [t]: [df] is
    the table [src] that [pd.read_csv] returned for the file of [t] in the
    directory of subject [p], after [df["user_id"] = p]; it has as many rows
    as [src], it has a column [user_id], and every column of that name holds
    [p] in each row, whether or not [src] had such a column. *)
Theorem C8_subject_column_holds_the_subject
    (S : Type) (h : handler S) (s : S) (self : MMASHDataset)
    (p v : string) (record : record_t) (t : string) (df : DataFrame) :
  In (p, v, record) (added (trace_of (run h (load_data self) s))) ->
  record !! t = Some df ->
  exists file src,
    source_file t = Some file
    /\ In (os_path_join (os_path_join (os_path_join (dataset_folder self) "MMASH") p) file,
           Ok src)
          (csv_log (trace_of (run h (load_data self) s)))
    /\ df = df_setitem src "user_id" (VStr p)
    /\ df_len df = df_len src
    /\ df_getitem df "user_id" <> []
    /\ forall col, In col (df_getitem df "user_id") ->
                   col = repeat (VStr p) (df_len df).
Proof.
  intros Hadded Hdf.
  apply load_data_added in Hadded as (_ & _ & Hfrom & _).
  destruct (Hfrom t df Hdf) as [H0|(_ & file & src & Hfile & Hlog & ->)].
  - by rewrite lookup_empty in H0.
  - exists file, src. split.
    { repeat (destruct Hfile as [[= <- <-]|Hfile]; [reflexivity|]). destruct Hfile. }
    split; [done|]. split; [done|]. split; [done|].
    exact (df_setitem_getitem src "user_id" (VStr p)).
Qed.

Lemma C8_witness :
  exists file src,
    source_file "sleep" = Some file
    /\ In (os_path_join (os_path_join (os_path_join "data/MMASH" "MMASH") "user_1") file,
           Ok src)
          (csv_log (trace_of (run (static demo_fs) (load_data (demo_self ["sleep"])) [])))
    /\ df_setitem demo_table "user_id" (VStr "user_1")
       = df_setitem src "user_id" (VStr "user_1")
    /\ df_len (df_setitem demo_table "user_id" (VStr "user_1")) = df_len src
    /\ df_getitem (df_setitem demo_table "user_id" (VStr "user_1")) "user_id" <> []
    /\ forall col,
         In col (df_getitem (df_setitem demo_table "user_id" (VStr "user_1")) "user_id") ->
         col = repeat (VStr "user_1")
                 (df_len (df_setitem demo_table "user_id" (VStr "user_1"))).
Proof.
  apply (C8_subject_column_holds_the_subject (list sample) (static demo_fs) []
           (demo_self ["sleep"]) "user_1" "user_1"
           (<["sleep" := df_setitem demo_table "user_id" (VStr "user_1")]> ∅)
           "sleep" (df_setitem demo_table "user_id" (VStr "user_1"))).
  - vm_compute. left. reflexivity.
  - vm_compute. reflexivity.
Defined.

(** ** Loading from a fixed file system *)

Lemma static_csv_log (fs : FileSystem) {A} (p : prog A) (st : list sample) path ans :
  In (path, ans) (csv_log (trace_of (run (static fs) p st))) -> ans = read_csv fs path.
Proof.
  revert st. induction p as [a|e|X ev k IH]; intros st; unfold trace_of in *;
    simpl; [done..|].
  destruct (static_handle fs X ev st) as [r st1] eqn:Hh.
  specialize (IH r st1).
  destruct (run (static fs) (k r) st1) as [[tr st2] res]. simpl in *.
  destruct ev; simpl in *; try done.
  injection Hh as <- <-. intros [[= <- <-]|Hin]; [done|by apply IH].
Qed.

Lemma source_file_In t file : source_file t = Some file <-> In (t, file) TABLE_FILES.
Proof.
  split.
  - unfold source_file. destruct (find _ TABLE_FILES) as [[k f]|] eqn:Hfind; [|done].
    simpl. intros [= <-]. apply find_some in Hfind as [Hin Heq].
    apply String.eqb_eq in Heq. simpl in Heq. by subst.
  - intros Hin.
    repeat (destruct Hin as [[= <- <-]|Hin]; [reflexivity|]). destruct Hin.
Qed.

Lemma ALL_TABLES_files : ALL_TABLES = map fst TABLE_FILES.
Proof. reflexivity. Qed.

Lemma source_file_supported t : In t ALL_TABLES <-> is_Some (source_file t).
Proof.
  split.
  - intros Hin.
    repeat (destruct Hin as [<-|Hin]; [by eexists|]). destruct Hin.
  - intros [file Hf]. apply source_file_In in Hf. rewrite ALL_TABLES_files.
    by apply (in_map fst) in Hf.
Qed.

(** C2: on a machine with file system [fs], for every sample
    [(p, v, record)] the load hands to the base class, the names under which
    [record] holds a table are exactly the requested names whose source file
    is present in the directory of subject [p]; and when the request passes
    the constructor's validation, they are exactly the requested names. *)
Theorem C2_record_keys_are_requested_and_present
    (fs : FileSystem) (self : MMASHDataset) (st : list sample)
    (p v : string) (record : record_t) :
  In (p, v, record) (added (trace_of (run (static fs) (load_data self) st))) ->
  (forall t, t ∈ dom record <->
             In t (tables self)
             /\ table_present fs (os_path_join (os_path_join (dataset_folder self) "MMASH") p) t
                = true)
  /\ (Forall (fun t => In t ALL_TABLES) (tables self) ->
      forall t, t ∈ dom record <-> In t (tables self)).
Proof.
  intros Hadded.
  pose proof (load_data_added _ _ _ _ _ _ Hadded) as (_ & Hin & Hfrom & _).
  assert (forall t, t ∈ dom record ->
            In t (tables self)
            /\ table_present fs
                 (os_path_join (os_path_join (dataset_folder self) "MMASH") p) t = true)
    as Hdom.
  { intros t [df Hdf]%elem_of_dom.
    destruct (Hfrom t df Hdf) as [H0|(Hreq & file & src & Hfile & Hlog & _)].
    { by rewrite lookup_empty in H0. }
    split; [done|]. apply static_csv_log in Hlog.
    apply source_file_In in Hfile. unfold table_present, file_absent.
    by rewrite Hfile, <- Hlog. }
  split.
  - intros t. split; [apply Hdom|]. intros [Hreq Hpresent].
    apply elem_of_dom, Hin; [|done].
    unfold table_present in Hpresent.
    destruct (source_file t) as [file|] eqn:Hfile; [|done].
    apply source_file_In in Hfile. by apply (in_map fst) in Hfile.
  - intros Hvalid t. split; [by intros [? _]%Hdom|]. intros Hreq.
    apply elem_of_dom, Hin; [|done]. rewrite <- ALL_TABLES_files.
    rewrite List.Forall_forall in Hvalid. by apply Hvalid.
Qed.

Lemma C2_witness :
  (forall t, t ∈ dom (<["rr" := df_setitem demo_table "user_id" (VStr "user_1")]>
                      (<["sleep" := df_setitem demo_table "user_id" (VStr "user_1")]> ∅)
                      : record_t) <->
             In t ["sleep"; "rr"]
             /\ table_present demo_fs
                  (os_path_join (os_path_join "data/MMASH" "MMASH") "user_1") t = true)
  /\ (Forall (fun t => In t ALL_TABLES) ["sleep"; "rr"] ->
      forall t, t ∈ dom (<["rr" := df_setitem demo_table "user_id" (VStr "user_1")]>
                      (<["sleep" := df_setitem demo_table "user_id" (VStr "user_1")]> ∅)
                      : record_t) <-> In t ["sleep"; "rr"]).
Proof.
  apply (C2_record_keys_are_requested_and_present demo_fs (demo_self ["sleep"; "rr"]) []
           "user_1" "user_1").
  vm_compute. left. reflexivity.
Defined.

Section Static.
Context (fs : FileSystem).

Lemma read_files_static tables user_path user_id files (record0 : record_t)
    (st : list sample) :
  exists tr,
    match first_failure fs user_path (requested_in tables files) with
    | Some e =>
        run (static fs) (read_files tables user_path user_id files record0) st
        = (tr, st, Exc e)
    | None =>
        exists record,
          run (static fs) (read_files tables user_path user_id files record0) st
          = (tr, st, Ok record)
    end.
Proof.
  revert record0. induction files as [|[key file] files IH]; intros record0.
  - exists []. by exists record0.
  - cbn [read_files]. rewrite run_bind, run_read_table.
    unfold requested_in in *. cbn [List.filter fst].
    destruct (Py.contains key tables); cbn [first_failure handle static static_handle].
    + destruct (read_csv fs (os_path_join user_path file)) as [df|e]; [|by eexists].
      destruct (IH (<[key := df_setitem df "user_id" (VStr user_id)]> record0)) as [tr Htr].
      eexists. destruct (first_failure fs user_path _) as [e|].
      * by rewrite Htr.
      * destruct Htr as [record ->]. by eexists.
    + destruct (IH record0) as [tr Htr]. exists tr.
      destruct (first_failure fs user_path _) as [e|].
      * by rewrite Htr.
      * destruct Htr as [record ->]. by eexists.
Qed.

(** One round of the loop for a directory entry: with a failing read nothing
    is stored, and the round ends normally exactly when the failure is a file
    not found; with no failing read one sample is stored. *)
Lemma load_user_static tables root_dir user_id (st : list sample) :
  path_isdir fs (os_path_join root_dir user_id) = true ->
  exists tr,
    match first_failure fs (os_path_join root_dir user_id) (requested tables) with
    | Some e =>
        run (static fs) (load_user tables root_dir user_id) st
        = (tr, st, if is_FileNotFoundError e then Ok tt else Exc e)
        /\ added tr = []
    | None =>
        exists record,
          run (static fs) (load_user tables root_dir user_id) st
          = (tr, st ++ [(user_id, user_id, record)], Ok tt)
    end.
Proof.
  intros Hdir. rewrite run_load_user. cbv zeta.
  cbn [handle static static_handle]. rewrite Hdir.
  rewrite run_assemble, read_tables_files, requested_in_TABLE_FILES.
  pose proof (run_read_files (static fs) tables (os_path_join root_dir user_id) user_id
                TABLE_FILES ∅ st) as Hread.
  destruct (read_files_static tables (os_path_join root_dir user_id) user_id
              TABLE_FILES ∅ st) as [tr Htr].
  destruct (first_failure fs _ _) as [e|].
  - rewrite Htr in *. destruct Hread as [Hadd _].
    eexists. split; [reflexivity|]. exact Hadd.
  - destruct Htr as [record Htr]. rewrite Htr. eexists. by exists record.
Qed.

End Static.

(** C1: on a machine with file system [fs], let the loop of [load_data] have
    gone through the entries [before] of the sorted listing and reach the
    directory entry [u], whose first failing read among the requested tables
    raises [e] (tables before it may have been read).  The round of [u] stores
    nothing.  If [e] is a FileNotFoundError the round ends normally and the
    load goes on with the entries [rest] from the unchanged store: its log,
    final store and result are those of the loop over [rest].  If [e] is any
    other error, the load ends there with [e]: its log stops with the round
    of [u], so that no entry of [rest] is visited. *)
Theorem C1_missing_file_skips_subject_other_error_aborts
    (fs : FileSystem) (self : MMASHDataset) (names before rest : list string)
    (u : string) (e : exn) (st st1 : list sample) (trb : list entry) :
  let root_dir := os_path_join (dataset_folder self) "MMASH" in
  let body := load_user (tables self) root_dir in
  listdir fs root_dir = Ok names ->
  Py.sorted names = before ++ u :: rest ->
  run (static fs) (for_ before body) st = (trb, st1, Ok tt) ->
  path_isdir fs (os_path_join root_dir u) = true ->
  first_failure fs (os_path_join root_dir u) (requested (tables self)) = Some e ->
  exists tru,
    run (static fs) (body u) st1
    = (tru, st1, if is_FileNotFoundError e then Ok tt else Exc e)
    /\ added tru = []
    /\ if is_FileNotFoundError e then
         trace_of (run (static fs) (load_data self) st)
         = Log (OsListdir root_dir) (Ok names)
             :: trb ++ tru ++ trace_of (run (static fs) (for_ rest body) st1)
         /\ state_of (run (static fs) (load_data self) st)
            = state_of (run (static fs) (for_ rest body) st1)
         /\ result_of (run (static fs) (load_data self) st)
            = result_of (run (static fs) (for_ rest body) st1)
       else
         run (static fs) (load_data self) st
         = (Log (OsListdir root_dir) (Ok names) :: trb ++ tru, st1, Exc e).
Proof.
  intros root_dir body Hlist Hsorted Hbefore Hdir Hfail. subst root_dir body.
  destruct (load_user_static fs (tables self) _ u st1 Hdir) as [tru Hu].
  rewrite Hfail in Hu. destruct Hu as [Hu Hadd].
  exists tru. split; [done|]. split; [done|].
  unfold load_data. cbv zeta.
  rewrite run_bind, run_call. cbn [handle static static_handle].
  rewrite Hlist, Hsorted, run_for_app, Hbefore, run_for_cons, Hu.
  destruct (is_FileNotFoundError e).
  - destruct (run (static fs) (for_ rest _) st1) as [[trr st2] r].
    unfold trace_of, state_of, result_of. by simpl.
  - by simpl.
Qed.

Lemma C1_witness :
  exists tru,
    run (static demo_fs) (load_user ["sleep"; "rr"] "data/MMASH/MMASH" "user_2")
      [("user_1", "user_1",
        <["rr" := df_setitem demo_table "user_id" (VStr "user_1")]>
          (<["sleep" := df_setitem demo_table "user_id" (VStr "user_1")]> ∅))]
    = (tru,
       [("user_1", "user_1",
         <["rr" := df_setitem demo_table "user_id" (VStr "user_1")]>
           (<["sleep" := df_setitem demo_table "user_id" (VStr "user_1")]> ∅))],
       Ok tt)
    /\ added tru = [].
Proof.
  destruct (C1_missing_file_skips_subject_other_error_aborts
              demo_fs (demo_self ["sleep"; "rr"])
              ["user_3"; "user_1"; "README.txt"; "user_5"; "user_2"; "user_4"]
              ["README.txt"; "user_1"] ["user_3"; "user_4"; "user_5"] "user_2"
              (FileNotFoundError "data/MMASH/MMASH/user_2/RR.csv") []
              [("user_1", "user_1",
                <["rr" := df_setitem demo_table "user_id" (VStr "user_1")]>
                  (<["sleep" := df_setitem demo_table "user_id" (VStr "user_1")]> ∅))]
              (trace_of (run (static demo_fs)
                 (for_ ["README.txt"; "user_1"]
                    (load_user ["sleep"; "rr"] "data/MMASH/MMASH")) [])))
    as (tru & Hrun & Hadd & _).
  - vm_compute. reflexivity.
  - vm_compute. reflexivity.
  - vm_compute. reflexivity.
  - vm_compute. reflexivity.
  - vm_compute. reflexivity.
  - exists tru. split; [exact Hrun|exact Hadd].
Defined.

(** The load of the demo data with sleep and rr requested: [user_2] is
    skipped, the empty [sleep.csv] of [user_4] ends the load, [user_5] is not
    reached. *)
Example load_data_demo :
  let x := run (static demo_fs) (load_data (demo_self ["sleep"; "rr"])) [] in
  map (fun s => s.1.1) (state_of x) = ["user_1"; "user_3"]
  /\ result_of x = Exc (OtherError "EmptyDataError" "No columns to parse from file")
  /\ reads (trace_of x)
     = ["data/MMASH/MMASH/user_1/sleep.csv"; "data/MMASH/MMASH/user_1/RR.csv";
        "data/MMASH/MMASH/user_2/sleep.csv"; "data/MMASH/MMASH/user_2/RR.csv";
        "data/MMASH/MMASH/user_3/sleep.csv"; "data/MMASH/MMASH/user_3/RR.csv";
        "data/MMASH/MMASH/user_4/sleep.csv"].
Proof. vm_compute. repeat split. Qed.

(** ** Discovery *)

Lemma leb_trans (a b c : string) : str_le a b -> str_le b c -> str_le a c.
Proof.
  unfold str_le, String.leb. revert b c.
  induction a as [|x a IH]; intros [|y b] [|z c]; simpl; try done.
  unfold Ascii.compare.
  destruct (N.compare_spec (N_of_ascii x) (N_of_ascii y)) as [Hxy|Hxy|Hxy];
    destruct (N.compare_spec (N_of_ascii y) (N_of_ascii z)) as [Hyz|Hyz|Hyz];
    destruct (N.compare_spec (N_of_ascii x) (N_of_ascii z)) as [Hxz|Hxz|Hxz];
    try done; try lia.
  apply IH.
Qed.

Lemma insert_sorted_perm x l : Permutation (x :: l) (Py.insert_sorted x l).
Proof.
  induction l as [|y l IH]; simpl; [done|].
  destruct (String.leb x y); [done|].
  rewrite perm_swap. by apply perm_skip.
Qed.

Lemma sorted_perm l : Permutation l (Py.sorted l).
Proof.
  induction l as [|x l IH]; simpl; [done|].
  rewrite <- insert_sorted_perm. by apply perm_skip.
Qed.

Lemma insert_sorted_strongly x l :
  StronglySorted str_le l -> StronglySorted str_le (Py.insert_sorted x l).
Proof.
  induction 1 as [|y l Hl IH Hy]; simpl.
  - repeat constructor.
  - destruct (String.leb x y) eqn:Hxy.
    + constructor; [by constructor|]. constructor; [done|].
      eapply List.Forall_impl; [|exact Hy]. intros z Hz. by eapply leb_trans.
    + constructor; [done|].
      rewrite <- (insert_sorted_perm x l). constructor; [|done].
      destruct (String.leb_total x y) as [H|H]; [congruence|done].
Qed.

Lemma sorted_strongly l : StronglySorted str_le (Py.sorted l).
Proof.
  induction l as [|x l IH]; simpl; [constructor|]. by apply insert_sorted_strongly.
Qed.

Lemma filter_strongly (f : string -> bool) l :
  StronglySorted str_le l -> StronglySorted str_le (List.filter f l).
Proof.
  induction 1 as [|x l Hl IH Hx]; simpl; [constructor|].
  destruct (f x); [|done]. constructor; [done|].
  rewrite List.Forall_forall in *. intros y [Hy _]%List.filter_In. by apply Hx.
Qed.

Lemma path_isdir_lstat fs p :
  path_isdir fs p = true <->
  lstat fs p = Plain Directory \/ lstat fs p = Symlink (Some Directory).
Proof.
  unfold path_isdir. destruct (lstat fs p) as [|[]|[[]|]]; split; try done; auto;
    by intros [|].
Qed.

(** On a fixed file system the loop stores and returns what assembly over
    the entries that are directories does. *)
Lemma load_users_subjects fs tables root_dir users (st : list sample) :
  let x := run (static fs) (load_users tables root_dir users) st in
  let y := run (static fs)
             (assemble_all tables root_dir
                (List.filter (fun u => path_isdir fs (os_path_join root_dir u)) users)) st in
  state_of x = state_of y /\ result_of x = result_of y
  /\ csv_log (trace_of x) = csv_log (trace_of y).
Proof.
  cbv zeta. unfold load_users, assemble_all. revert st.
  induction users as [|u users IH]; intros st; [done|].
  rewrite run_for_cons, run_load_user. cbv zeta. cbn [handle static static_handle List.filter].
  destruct (path_isdir fs (os_path_join root_dir u)) eqn:Hdir.
  - rewrite run_for_cons.
    destruct (run (static fs) (assemble _ _ _) st) as [[tr1 st1] [[]|e]]; [|done].
    specialize (IH st1).
    destruct (run (static fs) (for_ users _) st1) as [[tr2 st2] r2].
    destruct (run (static fs) (for_ (List.filter _ users) _) st1) as [[tr3 st3] r3].
    unfold state_of, result_of, trace_of in *. simpl in *.
    destruct IH as (-> & -> & Hlog). by rewrite !csv_log_app, Hlog.
  - specialize (IH st).
    destruct (run (static fs) (for_ users _) st) as [[tr2 st2] r2].
    destruct (run (static fs) (for_ (List.filter _ users) _) st) as [[tr3 st3] r3].
    unfold state_of, result_of, trace_of in *. by simpl in *.
Qed.

(** C4, as the code has it: on a machine with file system [fs] whose listing
    of the extracted root is [names], the subjects are the entries that
    [os.path.isdir] accepts, that is the directories and the symbolic links
    that resolve to a directory (plain files, and links to anything else, are
    left out), in lexicographic order; the load stores and returns what
    assembly over that list does, and when the list is empty it ends normally
    with nothing stored. *)
Theorem C4_subjects_are_sorted_directory_entries
    (fs : FileSystem) (self : MMASHDataset) (names : list string) (st : list sample) :
  let root_dir := os_path_join (dataset_folder self) "MMASH" in
  let subj := subjects fs root_dir names in
  listdir fs root_dir = Ok names ->
  (forall u, In u subj <->
             In u names
             /\ (lstat fs (os_path_join root_dir u) = Plain Directory
                 \/ lstat fs (os_path_join root_dir u) = Symlink (Some Directory)))
  /\ StronglySorted str_le subj
  /\ state_of (run (static fs) (load_data self) st)
     = state_of (run (static fs) (assemble_all (tables self) root_dir subj) st)
  /\ result_of (run (static fs) (load_data self) st)
     = result_of (run (static fs) (assemble_all (tables self) root_dir subj) st)
  /\ (subj = [] ->
      state_of (run (static fs) (load_data self) st) = st
      /\ result_of (run (static fs) (load_data self) st) = Ok tt).
Proof.
  intros root_dir subj Hlist. subst subj. unfold subjects.
  assert (state_of (run (static fs) (load_data self) st)
          = state_of (run (static fs) (assemble_all (tables self) root_dir
              (List.filter (fun u => path_isdir fs (os_path_join root_dir u))
                 (Py.sorted names))) st)
          /\ result_of (run (static fs) (load_data self) st)
             = result_of (run (static fs) (assemble_all (tables self) root_dir
              (List.filter (fun u => path_isdir fs (os_path_join root_dir u))
                 (Py.sorted names))) st)) as [Hst Hres].
  { pose proof (load_users_subjects fs (tables self) root_dir (Py.sorted names) st)
      as (Hst & Hres & _).
    rewrite <- Hst, <- Hres. unfold load_data, load_users. cbv zeta. fold root_dir.
    rewrite run_bind, run_call. cbn [handle static static_handle]. rewrite Hlist.
    by destruct (run (static fs) (for_ _ _) st) as [[tr st1] r]. }
  split; [|split; [|split; [|split]]]; try done.
  - intros u. rewrite List.filter_In, path_isdir_lstat.
    by rewrite <- (Permutation_in' (eq_refl u) (sorted_perm names)).
  - apply filter_strongly, sorted_strongly.
  - intros Hnil. rewrite Hst, Hres, Hnil. done.
Qed.

Lemma C4_witness :
  StronglySorted str_le
    (subjects demo_fs (os_path_join "data/MMASH" "MMASH")
       ["user_3"; "user_1"; "README.txt"; "user_5"; "user_2"; "user_4"]).
Proof.
  refine (proj1 (proj2 (C4_subjects_are_sorted_directory_entries
                          demo_fs (demo_self []) 
                          ["user_3"; "user_1"; "README.txt"; "user_5"; "user_2"; "user_4"]
                          [] _))).
  vm_compute. reflexivity.
Defined.

(** Against C4 as stated: an entry that is a symbolic link to a directory is
    not excluded; it is listed as a subject and its record is stored. *)
Lemma C4_counterexample :
  lstat link_fs "data/MMASH/MMASH/latest" = Symlink (Some Directory)
  /\ subjects link_fs "data/MMASH/MMASH" ["latest"] = ["latest"]
  /\ map (fun s => s.1)
       (state_of (run (static link_fs) (load_data (demo_self ["sleep"])) []))
     = [("latest", "latest")].
Proof. vm_compute. repeat split. Qed.

(** Against C3 as stated: with an empty list the constructor raises nothing;
    on the demo data it runs to its end and returns the instance. *)
Lemma C3_counterexample :
  (forall e, __init__ "data" (Some []) false [] <> Throw e)
  /\ result_of (run (static demo_fs) (__init__ "data" (Some []) false []) [])
     = Ok {| tables := []; root := "data"; dataset_folder := "data/MMASH" |}.
Proof. split; [intros e H; discriminate H|]. vm_compute. reflexivity. Qed.

(** ** An empty table list *)

Lemma only_download (P : forall X, event X -> bool) folder :
  (forall X (ev : event X), is_acquisition ev = true -> P X ev = true) ->
  only P (download_and_extract folder).
Proof.
  intros HP. unfold download_and_extract.
  apply only_bind; [by apply only_call, HP|]. intros _.
  apply only_bind; [by apply only_call, HP|]. intros resp.
  apply only_bind.
  { destruct (headers_get _ _) as [s|]; [|constructor].
    destruct (Py.int_of_str s); constructor. }
  intros total. apply only_bind; [|intros _; apply only_bind]; [| |intros _].
  - apply only_with; [by apply only_call, HP|intros; by apply only_call, HP|].
    intros _. apply only_with; [by apply only_call, HP|intros; by apply only_call, HP|].
    intros _. apply only_bind; [by apply only_call, HP|]. intros content.
    apply only_bind.
    + apply only_for. intros data. apply only_bind; [by apply only_call, HP|].
      intros size. by apply only_call, HP.
    + intros _. destruct (snd content); constructor.
  - apply only_with; [by apply only_call, HP|intros; by apply only_call, HP|].
    intros _. by apply only_call, HP.
  - by apply only_call, HP.
Qed.










(** ** The request as a set *)

Lemma contains_ext (k : string) (l1 l2 : list string) :
  (forall t, In t l1 <-> In t l2) -> Py.contains k l1 = Py.contains k l2.
Proof.
  intros Hext. destruct (Py.contains k l2) eqn:H2.
  - apply contains_In. apply Hext. by apply contains_In.
  - apply contains_not_In. intros H1. apply contains_not_In in H2. apply H2.
    by apply Hext.
Qed.

Lemma load_user_ext (tables1 tables2 : list string) root_dir :
  (forall t, In t tables1 <-> In t tables2) ->
  load_user tables1 root_dir = load_user tables2 root_dir.
Proof.
  intros Hext. unfold load_user, assemble, read_tables, read_table.
  by rewrite (contains_ext "sleep" _ _ Hext), (contains_ext "activity" _ _ Hext),
    (contains_ext "user_info" _ _ Hext), (contains_ext "questionnaire" _ _ Hext),
    (contains_ext "rr" _ _ Hext).
Qed.

Lemma requested_ext (tables1 tables2 : list string) :
  (forall t, In t tables1 <-> In t tables2) -> requested tables1 = requested tables2.
Proof.
  intros Hext. unfold requested. apply List.filter_ext. intros kf.
  by apply contains_ext.
Qed.

Lemma load_user_reads_prefix {S} (h : handler S) tables root_dir user_id (s : S) :
  reads (trace_of (run h (load_user tables root_dir user_id) s))
  `prefix_of` map (path_in (os_path_join root_dir user_id)) (requested tables).
Proof.
  rewrite run_load_user. cbv zeta.
  destruct (handle h (OsPathIsdir _) s) as [[[]|e] s1]; unfold trace_of; simpl;
    try apply prefix_nil.
  rewrite run_assemble, read_tables_files.
  pose proof (run_read_files h tables (os_path_join root_dir user_id) user_id
                TABLE_FILES ∅ s1) as Hread.
  destruct (run h (read_files _ _ _ _ _) s1) as [[tr s2] [rec|e]].
  - destruct Hread as (_ & _ & Hreads & _).
    destruct (handle h (AddSample _ _ _) s2) as [ans s3]. simpl.
    change (reads (Log (OsPathIsdir (os_path_join root_dir user_id)) (Ok true)
                     :: tr ++ [Log (AddSample user_id user_id rec) ans]))
      with (reads (tr ++ [Log (AddSample user_id user_id rec) ans])).
    rewrite reads_app, Hreads. unfold reads. simpl. by rewrite app_nil_r.
  - by destruct Hread as (_ & Hpre & _).
Qed.

(** C10: two table lists with the same names, in whatever order and however
    often, give the same load: [load_data] is the same program for both, so
    that on every machine it makes the same calls and hands over the same
    records.  The files read for a subject are taken, in this order, from
    sleep.csv, Activity.csv, user_info.csv, questionnaire.csv, RR.csv: what a
    round reads is an initial part of the files of the requested names in that
    order, and all of them when the round hands over a record. *)
Theorem C10_load_depends_on_the_set_of_tables
    (tables1 tables2 : list string) (root1 root2 folder : string) :
  (forall t, In t tables1 <-> In t tables2) ->
  load_data {| tables := tables1; root := root1; dataset_folder := folder |}
  = load_data {| tables := tables2; root := root2; dataset_folder := folder |}
  /\ requested tables1 = requested tables2
  /\ forall (S : Type) (h : handler S) (s : S) (root_dir u : string),
       let tr := trace_of (run h (load_user tables1 root_dir u) s) in
       reads tr `prefix_of` map (path_in (os_path_join root_dir u)) (requested tables1)
       /\ (added tr <> [] ->
           reads tr = map (path_in (os_path_join root_dir u)) (requested tables1)).
Proof.
  intros Hext. split; [|split].
  - unfold load_data. cbn [tables dataset_folder]. by rewrite (load_user_ext _ _ _ Hext).
  - by apply requested_ext.
  - intros S h s root_dir u tr. split; [apply load_user_reads_prefix|].
    intros Hadd. destruct (added tr) as [|[[p v] record] l] eqn:Htr; [done|].
    assert (In (p, v, record) (added tr)) as Hin by (rewrite Htr; by left).
    by apply load_user_added in Hin as (_ & _ & _ & Hreads).
Qed.

Lemma C10_witness :
  load_data {| tables := ["rr"; "sleep"; "rr"]; root := "data"; dataset_folder := "data/MMASH" |}
  = load_data {| tables := ["sleep"; "rr"]; root := "data"; dataset_folder := "data/MMASH" |}
  /\ requested ["rr"; "sleep"; "rr"] = [("sleep", "sleep.csv"); ("rr", "RR.csv")].
Proof.
  destruct (C10_load_depends_on_the_set_of_tables
              ["rr"; "sleep"; "rr"] ["sleep"; "rr"] "data" "data" "data/MMASH")
    as (Hprog & Hreq & _).
  - intros t. simpl. tauto.
  - split; [exact Hprog|reflexivity].
Defined.

(** ** Download *)

Lemma opened_app (tr1 tr2 : list entry) : opened (tr1 ++ tr2) = opened tr1 ++ opened tr2.
Proof.
  induction tr1 as [|[X ev ans] tr1 IH]; [done|]. simpl.
  destruct ev; simpl; by rewrite ?IH.
Qed.

Lemma progress_totals_app (tr1 tr2 : list entry) :
  progress_totals (tr1 ++ tr2) = progress_totals tr1 ++ progress_totals tr2.
Proof.
  induction tr1 as [|[X ev ans] tr1 IH]; [done|]. simpl.
  destruct ev; simpl; by rewrite ?IH.
Qed.

Lemma run_write_chunks d content (written : list bytes) :
  exists tr,
    run (server d) (write_chunks content) written = (tr, written ++ content, Ok tt)
    /\ opened tr = [] /\ progress_totals tr = [].
Proof.
  unfold write_chunks. revert written.
  induction content as [|data content IH]; intros written.
  - exists []. by rewrite app_nil_r.
  - rewrite run_for_cons, run_bind, !run_call. cbn [handle server server_handle].
    rewrite run_call. cbn [handle server server_handle].
    destruct (IH (written ++ [data])) as (tr & -> & Ho & Hp).
    eexists. split; [|split].
    + rewrite <- (app_assoc written [data] content). reflexivity.
    + exact Ho.
    + exact Hp.
Qed.

Ltac run_server_step :=
  first [rewrite run_bind | rewrite run_call | rewrite run_attempt];
  cbn [handle server server_handle fst snd reraise].

Lemma run_download d folder (written : list bytes) (total : Z) :
  match headers_get (headers (response d)) "content-length" with
  | None => total = 0%Z
  | Some s => Py.int_of_str s = Some total
  end ->
  exists tr,
    run (server d) (download_and_extract folder) written
    = (tr, chunks d, match failure d with None => Ok tt | Some e => Exc e end)
    /\ opened tr = [os_path_join folder "mmash.zip"]
    /\ progress_totals tr = [total].
Proof.
  intros Hlen. unfold download_and_extract, with_.
  do 3 run_server_step. do 2 run_server_step.
  assert (run (server d)
            match headers_get (headers (response d)) "content-length" with
            | Some s =>
                match Py.int_of_str s with
                | Some n => Ret n
                | None => Throw (ValueError ("invalid literal for int() with base 10: "
                                             +:+ Py.repr_str s))
                end
            | None => Ret 0%Z
            end written = ([], written, Ok total)) as ->.
  { destruct (headers_get _ _) as [s|]; [by rewrite Hlen|by subst]. }
  repeat run_server_step.
  destruct (run_write_chunks d (chunks d) []) as (tr & -> & Ho & Hp).
  cbn [app].
  destruct (failure d) as [e|]; cbn [run]; repeat run_server_step; cbn [run app];
    (eexists; split; [reflexivity|]);
    cbn [opened progress_totals].
  all: repeat (first [rewrite opened_app | rewrite progress_totals_app];
               cbn [opened progress_totals app]).
  all: by rewrite Ho, Hp.
Qed.

Lemma run_download_rejected d folder (written : list bytes) (value : string) :
  headers_get (headers (response d)) "content-length" = Some value ->
  Py.int_of_str value = None ->
  run (server d) (download_and_extract folder) written
  = ([Log (OsMakedirs folder true) (Ok tt);
      Log (RequestsGet MMASH_URL true) (Ok (response d))],
     written,
     Exc (ValueError ("invalid literal for int() with base 10: "
                      +:+ Py.repr_str value))).
Proof.
  intros Hhead Hint. unfold download_and_extract.
  rewrite run_bind, run_call. cbn [handle server server_handle].
  rewrite run_bind, run_call. cbn [handle server server_handle].
  by rewrite run_bind, Hhead, Hint.
Qed.

(** C7, as the code has it, on a machine whose file system takes the writes.
    When the answer has no content-length header, or one that [int] accepts
    (whatever number it is, the size of the body or not), the header only
    sets the total of the progress bar: the archive is opened, every chunk of
    the body is written to it in order, and the download ends as the stream
    does.  When the header is one that [int] rejects, the download raises
    ValueError right after the request: the archive is not opened, no progress
    bar is created and nothing is written. *)
Theorem C7_content_length_only_sets_progress_total
    (d : Download) (folder : string) (written : list bytes) :
  let x := run (server d) (download_and_extract folder) written in
  (forall total : Z,
     match headers_get (headers (response d)) "content-length" with
     | None => total = 0%Z
     | Some s => Py.int_of_str s = Some total
     end ->
     opened (trace_of x) = [os_path_join folder "mmash.zip"]
     /\ progress_totals (trace_of x) = [total]
     /\ state_of x = chunks d
     /\ result_of x = match failure d with None => Ok tt | Some e => Exc e end)
  /\ (forall value : string,
        headers_get (headers (response d)) "content-length" = Some value ->
        Py.int_of_str value = None ->
        (exists msg, result_of x = Exc (ValueError msg))
        /\ trace_of x = [Log (OsMakedirs folder true) (Ok tt);
                         Log (RequestsGet MMASH_URL true) (Ok (response d))]
        /\ opened (trace_of x) = []
        /\ progress_totals (trace_of x) = []
        /\ state_of x = written).
Proof.
  cbv zeta. split.
  - intros total Hlen.
    destruct (run_download d folder written total Hlen) as (tr & -> & Ho & Hp).
    done.
  - intros value Hhead Hint.
    rewrite (run_download_rejected d folder written value Hhead Hint).
    split; [by eexists|done].
Qed.

Lemma C7_witness :
  state_of (run (server wrong_length) (download_and_extract "data/MMASH") [])
  = [[x50; x4b]; [x03; x04]]
  /\ progress_totals
       (trace_of (run (server wrong_length) (download_and_extract "data/MMASH") []))
     = [999%Z].
Proof.
  destruct (proj1 (C7_content_length_only_sets_progress_total
                     wrong_length "data/MMASH" []) 999%Z) as (_ & Hp & Hs & _).
  - vm_compute. reflexivity.
  - split; [exact Hs|exact Hp].
Defined.

(** Against C7 as stated: with a content-length header that is not a
    number the download raises ValueError on account of the header; the
    archive is never opened and no byte of the body is written. *)
Lemma C7_counterexample :
  let x := run (server bad_length) (download_and_extract "data/MMASH") [] in
  headers_get (headers (response bad_length)) "content-length" = Some "abc"
  /\ result_of x = Exc (ValueError "invalid literal for int() with base 10: 'abc'")
  /\ opened (trace_of x) = []
  /\ state_of x = []
  /\ chunks bad_length <> [].
Proof. vm_compute. repeat split. discriminate. Qed.

(** * Further properties of the loader *)

(** ** The constructor *)

Lemma validate_ret_supported (tables : list string) :
  validate tables = Ret tt -> Forall (fun t => In t ALL_TABLES) tables.
Proof.
  induction tables as [|t l IH]; [constructor|].
  unfold validate in *. rewrite for_cons.
  destruct (Py.contains t ALL_TABLES) eqn:Ht; cbn [negb bind]; [|discriminate].
  intros Hl. constructor; [by apply (contains_In t ALL_TABLES)|by apply IH].
Qed.

(** X1: validation accepts a table list exactly when every name in it is one
    of the five supported ones (in any order, repeated or not, the empty list
    included): then, and only then, the constructor goes on to construct the
    base class, and it does so first, with the dataset name MMASH and the
    root, table list, dev flag and keyword options it was given. *)
Theorem X1_validation_accepts_exactly_supported_lists
    (root_arg : string) (tables : list string) (dev : bool) (kwargs : Kwargs) :
  Forall (fun t => In t ALL_TABLES) tables <->
  exists k, __init__ root_arg (Some tables) dev kwargs
            = Vis (SuperInit "MMASH" root_arg tables dev kwargs) k.
Proof.
  unfold __init__. split.
  - intros Hok. rewrite (validate_supported tables Hok). eexists. reflexivity.
  - intros [k Hk]. destruct (validate_cases tables) as [Hv|[e Hv]].
    + by apply validate_ret_supported.
    + rewrite Hv in Hk. discriminate Hk.
Qed.

(** X2: on a machine with file system [fs] where [root/MMASH/MMASH] exists,
    constructing the loader with supported tables is loading: after the two
    calls to the base class and to [os.path.exists] its log is that of
    [load_data] on the instance with these tables and the dataset folder
    [root/MMASH]; it stores what the load stores, returns that instance when
    the load ends normally and raises what the load raises. *)
Theorem X2_constructor_is_load_when_extracted
    (fs : FileSystem) (root_arg : string) (tables : list string) (dev : bool)
    (kwargs : Kwargs) (st : list sample) :
  let self := {| tables := tables; root := root_arg;
                 dataset_folder := os_path_join root_arg "MMASH" |} in
  let x := run (static fs) (__init__ root_arg (Some tables) dev kwargs) st in
  let y := run (static fs) (load_data self) st in
  Forall (fun t => In t ALL_TABLES) tables ->
  path_exists fs (os_path_join (os_path_join root_arg "MMASH") "MMASH") = true ->
  trace_of x
  = Log (SuperInit "MMASH" root_arg tables dev kwargs) (Ok root_arg)
      :: Log (OsPathExists (os_path_join (os_path_join root_arg "MMASH") "MMASH")) (Ok true)
      :: trace_of y
  /\ state_of x = state_of y
  /\ result_of x = match result_of y with Ok _ => Ok self | Exc e => Exc e end.
Proof.
  intros self x y Hok Hex. subst x y. unfold __init__.
  rewrite (validate_supported tables Hok).
  change (bind (Ret tt) ?f) with (f tt). cbv beta.
  rewrite run_bind, run_call. cbn [handle static static_handle base_init].
  rewrite run_bind, run_call. cbn [handle static static_handle].
  unfold MMASH_FOLDER, base_init.
  rewrite Hex. simpl negb. cbv iota.
  change (bind (Ret tt) ?f) with (f tt). cbv beta.
  rewrite run_bind. fold self.
  destruct (run (static fs) (load_data self) st) as [[tr st1] [[]|e]];
    unfold trace_of, state_of, result_of; simpl; by rewrite ?app_nil_r.
Qed.

Lemma X2_witness :
  result_of (run (static demo_fs) (__init__ "data" (Some ["user_info"]) true []) [])
  = Ok {| tables := ["user_info"]; root := "data"; dataset_folder := "data/MMASH" |}
  /\ patients (state_of (run (static demo_fs)
                 (__init__ "data" (Some ["user_info"]) true []) []))
     = ["user_1"; "user_2"; "user_3"; "user_4"; "user_5"].
Proof.
  destruct (X2_constructor_is_load_when_extracted demo_fs "data" ["user_info"] true [] [])
    as (_ & Hst & Hres).
  - repeat (constructor; [simpl; auto 10|]). constructor.
  - vm_compute. reflexivity.
  - rewrite Hres, Hst. vm_compute. split; reflexivity.
Defined.

(** X3: on any machine, when the base class is constructed, [root/MMASH/MMASH]
    is reported absent and [download_and_extract] raises [e], the constructor
    raises [e] and the load never starts: after the two first calls the log is
    that of the failed acquisition, which holds acquisition calls only (no
    listing, no table read, no sample added). *)
Theorem X3_failed_acquisition_aborts_construction
    (S : Type) (h : handler S) (s s1 s2 : S)
    (root_arg root : string) (tables : list string) (dev : bool) (kwargs : Kwargs)
    (e : exn) :
  let folder := os_path_join root "MMASH" in
  Forall (fun t => In t ALL_TABLES) tables ->
  handle h (SuperInit "MMASH" root_arg tables dev kwargs) s = (Ok root, s1) ->
  handle h (OsPathExists (os_path_join folder "MMASH")) s1 = (Ok false, s2) ->
  result_of (run h (download_and_extract folder) s2) = Exc e ->
  run h (__init__ root_arg (Some tables) dev kwargs) s
  = (Log (SuperInit "MMASH" root_arg tables dev kwargs) (Ok root)
       :: Log (OsPathExists (os_path_join folder "MMASH")) (Ok false)
       :: trace_of (run h (download_and_extract folder) s2),
     state_of (run h (download_and_extract folder) s2),
     Exc e)
  /\ forallb (entry_is acquisition)
       (trace_of (run h (download_and_extract folder) s2)) = true.
Proof.
  intros folder Hok Hinit Hex Hfail. subst folder. split.
  - unfold __init__. rewrite (validate_supported tables Hok).
    change (bind (Ret tt) ?f) with (f tt). cbv beta.
    rewrite run_bind, run_call, Hinit.
    rewrite run_bind, run_call. unfold MMASH_FOLDER. rewrite Hex.
    simpl negb. cbv iota. rewrite run_bind.
    destruct (run h (download_and_extract _) s2) as [[tr s3] r].
    unfold result_of, trace_of, state_of in *. simpl in *. by subst r.
  - apply only_run, only_download. by intros X ev.
Qed.

Lemma X3_witness :
  result_of (run (static demo_fs) (__init__ "elsewhere" (Some ["sleep"]) false []) [])
  = Exc (OtherError "OSError" "read-only file system, network unreachable").
Proof.
  destruct (X3_failed_acquisition_aborts_construction (list sample) (static demo_fs)
              [] [] [] "elsewhere" "elsewhere" ["sleep"] false []
              (OtherError "OSError" "read-only file system, network unreachable"))
    as [Hrun _].
  - repeat (constructor; [simpl; auto 10|]). constructor.
  - reflexivity.
  - vm_compute. reflexivity.
  - vm_compute. reflexivity.
  - by rewrite Hrun.
Defined.

(** ** Listing *)

(** X4: on any machine, when listing the extracted root raises [e], whatever
    its class (a FileNotFoundError too: the [try] of the loop is not around
    the listing), [load_data] raises [e] after that one call: nothing is read
    and nothing is added. *)
Theorem X4_listing_error_propagates
    (S : Type) (h : handler S) (s s1 : S) (self : MMASHDataset) (e : exn) :
  let root_dir := os_path_join (dataset_folder self) "MMASH" in
  handle h (OsListdir root_dir) s = (Exc e, s1) ->
  run h (load_data self) s = ([Log (OsListdir root_dir) (Exc e)], s1, Exc e).
Proof.
  intros root_dir Hlist. subst root_dir. unfold load_data. cbv zeta.
  by rewrite run_bind, run_call, Hlist.
Qed.

Lemma X4_witness :
  result_of (run (static demo_fs) (load_data
              {| tables := ["sleep"]; root := "data"; dataset_folder := "data/other" |}) [])
  = Exc (FileNotFoundError "data/other/MMASH").
Proof.
  by rewrite (X4_listing_error_propagates (list sample) (static demo_fs) [] []
                {| tables := ["sleep"]; root := "data"; dataset_folder := "data/other" |}
                (FileNotFoundError "data/other/MMASH") eq_refl).
Defined.

(** ** The samples of a load *)

Lemma load_user_added_cases {S} (h : handler S) tables root_dir u (s : S) :
  added (trace_of (run h (load_user tables root_dir u) s)) = []
  \/ exists record,
       added (trace_of (run h (load_user tables root_dir u) s)) = [(u, u, record)].
Proof.
  rewrite run_load_user. cbv zeta.
  destruct (handle h (OsPathIsdir _) s) as [[[]|e] s1]; unfold trace_of; simpl; auto.
  rewrite run_assemble, read_tables_files.
  pose proof (run_read_files h tables (os_path_join root_dir u) u TABLE_FILES ∅ s1)
    as Hread.
  destruct (run h (read_files _ _ _ _ _) s1) as [[tr s2] [record|e]].
  - destruct Hread as (Hadd & _).
    destruct (handle h (AddSample _ _ _) s2) as [[[]|e] s3]; simpl;
      rewrite added_app, Hadd; simpl; eauto.
  - destruct Hread as (Hadd & _). simpl. auto.
Qed.

Lemma load_users_patients {S} (h : handler S) tables root_dir users (s : S) :
  patients (added (trace_of (run h (load_users tables root_dir users) s)))
  `sublist_of` users.
Proof.
  unfold load_users. revert s. induction users as [|u users IH]; intros s; [done|].
  rewrite run_for_cons.
  destruct (load_user_added_cases h tables root_dir u s) as [Hu|[record Hu]];
    destruct (run h (load_user tables root_dir u) s) as [[tr1 s1] [[]|e]];
    unfold trace_of in *; simpl in Hu.
  - specialize (IH s1). destruct (run h (for_ users _) s1) as [[tr2 s2] r].
    simpl in *. rewrite added_app, Hu. simpl. by apply sublist_cons.
  - simpl. rewrite Hu. apply sublist_nil_l.
  - specialize (IH s1). destruct (run h (for_ users _) s1) as [[tr2 s2] r].
    simpl in *. rewrite added_app, Hu. simpl. by apply sublist_skip.
  - simpl. rewrite Hu. simpl. apply sublist_skip, sublist_nil_l.
Qed.

Lemma sublist_strongly (l1 l2 : list string) :
  l1 `sublist_of` l2 -> StronglySorted str_le l2 -> StronglySorted str_le l1.
Proof.
  induction 1 as [|x l1 l2 Hsub IH|x l1 l2 Hsub IH]; intros Hs.
  - constructor.
  - apply StronglySorted_inv in Hs as [Hs Hx]. constructor; [by apply IH|].
    rewrite List.Forall_forall in *. intros y Hy. apply Hx.
    apply list_elem_of_In. eapply elem_of_sublist; [|exact Hsub].
    by apply list_elem_of_In.
  - apply StronglySorted_inv in Hs as [Hs _]. by apply IH.
Qed.

(** X5: on any machine that lists the extracted root as [names], the patient
    ids of the samples [load_data] hands over, in the order it hands them
    over, are a sub-sequence of the sorted listing: at most one sample per
    listed entry, in lexicographic order of the entries; and each sample has
    its patient id as visit id. *)
Theorem X5_samples_follow_the_sorted_listing
    (S : Type) (h : handler S) (s s1 : S) (self : MMASHDataset) (names : list string) :
  let root_dir := os_path_join (dataset_folder self) "MMASH" in
  let a := added (trace_of (run h (load_data self) s)) in
  handle h (OsListdir root_dir) s = (Ok names, s1) ->
  patients a `sublist_of` Py.sorted names
  /\ StronglySorted str_le (patients a)
  /\ Forall (fun x => x.1.2 = x.1.1) a.
Proof.
  intros root_dir a Hlist.
  assert (patients a `sublist_of` Py.sorted names) as Hsub.
  { subst a root_dir. unfold load_data. cbv zeta. rewrite run_bind, run_call, Hlist.
    pose proof (load_users_patients h (tables self)
                  (os_path_join (dataset_folder self) "MMASH") (Py.sorted names) s1)
      as Hp.
    unfold load_users in Hp.
    destruct (run h (for_ _ _) s1) as [[tr s2] r]. by unfold trace_of in *. }
  split; [done|]. split.
  - eapply sublist_strongly; [exact Hsub|apply sorted_strongly].
  - apply List.Forall_forall. intros [[p v] record] Hin.
    by apply load_data_added in Hin as [-> _].
Qed.

Lemma X5_witness :
  patients (added (trace_of (run (static demo_fs)
                     (load_data (demo_self ["sleep"; "rr"])) [])))
  `sublist_of` ["README.txt"; "user_1"; "user_2"; "user_3"; "user_4"; "user_5"].
Proof.
  exact (proj1 (X5_samples_follow_the_sorted_listing (list sample) (static demo_fs)
                  [] [] (demo_self ["sleep"; "rr"])
                  ["user_3"; "user_1"; "README.txt"; "user_5"; "user_2"; "user_4"]
                  eq_refl)).
Defined.

Lemma patients_app (st1 st2 : list sample) :
  patients (st1 ++ st2) = patients st1 ++ patients st2.
Proof. unfold patients. apply map_app. Qed.

Lemma load_users_no_abort fs tables root_dir users (st : list sample) :
  (forall u e, In u users ->
     path_isdir fs (os_path_join root_dir u) = true ->
     first_failure fs (os_path_join root_dir u) (requested tables) = Some e ->
     is_FileNotFoundError e = true) ->
  result_of (run (static fs) (load_users tables root_dir users) st) = Ok tt
  /\ patients (state_of (run (static fs) (load_users tables root_dir users) st))
     = patients st
       ++ List.filter (complete fs tables root_dir)
            (List.filter (fun u => path_isdir fs (os_path_join root_dir u)) users).
Proof.
  unfold load_users. revert st. induction users as [|u users IH]; intros st Hskip.
  - unfold result_of, state_of. simpl. by rewrite app_nil_r.
  - assert (forall v e, In v users ->
              path_isdir fs (os_path_join root_dir v) = true ->
              first_failure fs (os_path_join root_dir v) (requested tables) = Some e ->
              is_FileNotFoundError e = true) as Hrest.
    { intros v e Hv. apply Hskip. by right. }
    rewrite run_for_cons. cbn [List.filter].
    destruct (path_isdir fs (os_path_join root_dir u)) eqn:Hdir.
    + destruct (load_user_static fs tables root_dir u st Hdir) as [tr Hu].
      cbn [List.filter]. unfold complete at 1.
      destruct (first_failure fs (os_path_join root_dir u) (requested tables))
        as [e|] eqn:Hfail.
      * destruct Hu as [Hu _]. rewrite Hu, (Hskip u e (or_introl eq_refl) Hdir Hfail).
        destruct (IH st Hrest) as [Hres Hst].
        destruct (run (static fs) (for_ users _) st) as [[tr2 st2] r].
        by unfold result_of, state_of in *.
      * destruct Hu as [record Hu]. rewrite Hu.
        destruct (IH (st ++ [(u, u, record)]) Hrest) as [Hres Hst].
        destruct (run (static fs) (for_ users _) (st ++ [(u, u, record)]))
          as [[tr2 st2] r].
        unfold result_of, state_of in *. simpl in *. split; [done|].
        rewrite Hst, patients_app. simpl. by rewrite <- app_assoc.
    + rewrite run_load_user. cbv zeta. cbn [handle static static_handle]. rewrite Hdir.
      destruct (IH st Hrest) as [Hres Hst].
      destruct (run (static fs) (for_ users _) st) as [[tr2 st2] r].
      by unfold result_of, state_of in *.
Qed.

(** X6: on a machine with file system [fs] whose listing of the extracted
    root is [names], if no directory entry has a failing read other than a
    file not found, [load_data] ends normally and the patient ids it stores
    are, after those stored before and in sorted order, exactly the directory
    entries all of whose requested files could be read. *)
Theorem X6_load_stores_the_complete_subjects
    (fs : FileSystem) (self : MMASHDataset) (names : list string) (st : list sample) :
  let root_dir := os_path_join (dataset_folder self) "MMASH" in
  listdir fs root_dir = Ok names ->
  (forall u e, In u (subjects fs root_dir names) ->
     first_failure fs (os_path_join root_dir u) (requested (tables self)) = Some e ->
     is_FileNotFoundError e = true) ->
  result_of (run (static fs) (load_data self) st) = Ok tt
  /\ patients (state_of (run (static fs) (load_data self) st))
     = patients st
       ++ List.filter (complete fs (tables self) root_dir) (subjects fs root_dir names).
Proof.
  intros root_dir Hlist Hskip.
  destruct (load_users_no_abort fs (tables self) root_dir (Py.sorted names) st)
    as [Hres Hst].
  { intros u e Hu Hdir. apply Hskip. unfold subjects. by apply List.filter_In. }
  fold (subjects fs root_dir names) in Hst.
  unfold load_data, load_users in *. cbv zeta. fold root_dir.
  rewrite run_bind, run_call. cbn [handle static static_handle]. rewrite Hlist.
  destruct (run (static fs) (for_ _ _) st) as [[tr st1] r].
  by unfold result_of, state_of in *.
Qed.

Lemma X6_witness :
  patients (state_of (run (static demo_fs) (load_data (demo_self ["user_info"; "rr"])) []))
  = ["user_1"; "user_3"; "user_4"; "user_5"].
Proof.
  refine (proj2 (X6_load_stores_the_complete_subjects demo_fs
                   (demo_self ["user_info"; "rr"])
                   ["user_3"; "user_1"; "README.txt"; "user_5"; "user_2"; "user_4"]
                   [] _ _)).
  - vm_compute. reflexivity.
  - intros u e Hu. vm_compute in Hu.
    repeat (destruct Hu as [<-|Hu]; [vm_compute; by intros [= <-]|]). destruct Hu.
Defined.

(** ** The files a load reads *)

Lemma for_csv_log {S X} (h : handler S) (l : list X) (body : X -> prog unit) (s : S) x :
  In x (csv_log (trace_of (run h (for_ l body) s))) ->
  exists u s', In u l /\ In x (csv_log (trace_of (run h (body u) s'))).
Proof.
  revert s. induction l as [|u l IH]; intros s; [done|].
  rewrite run_for_cons.
  destruct (run h (body u) s) as [[tr1 s1] [[]|e]] eqn:Hu.
  - specialize (IH s1).
    destruct (run h (for_ l body) s1) as [[tr2 s2] r]. unfold trace_of in *; simpl in *.
    rewrite csv_log_app, in_app_iff. intros [Hx|Hx].
    + exists u, s. rewrite Hu. auto.
    + destruct (IH Hx) as (u' & s' & Hu' & Hx'). exists u', s'. auto.
  - unfold trace_of; simpl. intros Hx. exists u, s. rewrite Hu. auto.
Qed.

(** X7: on a machine with file system [fs] whose listing of the extracted
    root is [names], every path [load_data] reads with [pd.read_csv] is the
    file of a requested table name, under the directory of an entry of the
    listing that is a directory: nothing is read for other entries, for tables
    not requested, or outside the extracted root's sub-directories. *)
Theorem X7_load_reads_only_requested_files_of_subjects
    (fs : FileSystem) (self : MMASHDataset) (names : list string) (st : list sample)
    (p : string) :
  let root_dir := os_path_join (dataset_folder self) "MMASH" in
  listdir fs root_dir = Ok names ->
  In p (reads (trace_of (run (static fs) (load_data self) st))) ->
  exists u key file,
    In u (subjects fs root_dir names)
    /\ In key (tables self)
    /\ source_file key = Some file
    /\ p = os_path_join (os_path_join root_dir u) file.
Proof.
  intros root_dir Hlist. unfold load_data. cbv zeta. fold root_dir.
  rewrite run_bind, run_call. cbn [handle static static_handle]. rewrite Hlist.
  pose proof (for_csv_log (static fs) (Py.sorted names)
                (load_user (tables self) root_dir) st) as Hfor.
  destruct (run (static fs) (for_ _ _) st) as [[tr st1] r].
  unfold trace_of, reads in *. simpl in *.
  intros ([p' ans] & <- & Hin)%in_map_iff. simpl.
  destruct (Hfor _ Hin) as (u & s' & Hu & Hround).
  pose proof (load_user_reads_prefix (static fs) (tables self) root_dir u s')
    as [k Hpre].
  assert (In p' (reads (trace_of (run (static fs)
                 (load_user (tables self) root_dir u) s')))) as Hp.
  { unfold reads, trace_of. apply in_map_iff. by exists (p', ans). }
  assert (path_isdir fs (os_path_join root_dir u) = true) as Hdir.
  { destruct (path_isdir fs (os_path_join root_dir u)) eqn:Hdir; [done|].
    rewrite run_load_user in Hp. cbv zeta in Hp.
    cbn [handle static static_handle] in Hp. rewrite Hdir in Hp. destruct Hp. }
  assert (In p' (map (path_in (os_path_join root_dir u)) (requested (tables self))))
    as Hreq.
  { rewrite Hpre. apply in_or_app. by left. }
  apply in_map_iff in Hreq as ([key file] & <- & Hkf).
  apply List.filter_In in Hkf as [Hkf Hkey]. apply contains_In in Hkey.
  exists u, key, file. split; [|split; [done|split; [by apply source_file_In|done]]].
  unfold subjects. by apply List.filter_In.
Qed.

Lemma X7_witness :
  exists u key file,
    In u (subjects demo_fs (os_path_join "data/MMASH" "MMASH")
            ["user_3"; "user_1"; "README.txt"; "user_5"; "user_2"; "user_4"])
    /\ In key ["sleep"; "rr"]
    /\ source_file key = Some file
    /\ "data/MMASH/MMASH/user_2/RR.csv"
       = os_path_join (os_path_join (os_path_join "data/MMASH" "MMASH") u) file.
Proof.
  apply (X7_load_reads_only_requested_files_of_subjects demo_fs
           (demo_self ["sleep"; "rr"])
           ["user_3"; "user_1"; "README.txt"; "user_5"; "user_2"; "user_4"] []).
  - vm_compute. reflexivity.
  - vm_compute. auto 10.
Defined.

(** ** Acquired resources are released *)

Section Balance.
Context {S : Type} (h : handler S) (o c : forall X, event X -> bool).

Lemma count_calls_app f (tr1 tr2 : list entry) :
  count_calls f (tr1 ++ tr2) = count_calls f tr1 + count_calls f tr2.
Proof.
  induction tr1 as [|[X ev ans] tr1 IH]; [done|]. simpl. rewrite IH. lia.
Qed.

Lemma count_ok_app f (tr1 tr2 : list entry) :
  count_ok f (tr1 ++ tr2) = count_ok f tr1 + count_ok f tr2.
Proof.
  induction tr1 as [|[X ev ans] tr1 IH]; [done|]. simpl. rewrite IH. lia.
Qed.

Lemma balanced_Ret {A} (a : A) : balanced h o c (Ret a).
Proof. by intros s. Qed.

Lemma balanced_Throw {A} (e : exn) : balanced h o c (@Throw A e).
Proof. by intros s. Qed.

Lemma balanced_bind {A B} (p : prog A) (f : A -> prog B) :
  balanced h o c p -> (forall a, balanced h o c (f a)) -> balanced h o c (bind p f).
Proof.
  intros Hp Hf s. rewrite run_bind. specialize (Hp s).
  destruct (run h p s) as [[tr1 s1] [a|e]]; [|done].
  specialize (Hf a s1). destruct (run h (f a) s1) as [[tr2 s2] r].
  unfold trace_of in *. simpl in *. rewrite count_calls_app, count_ok_app. lia.
Qed.

Lemma balanced_attempt {A} (p : prog A) :
  balanced h o c p -> balanced h o c (attempt p).
Proof.
  intros Hp s. rewrite run_attempt. specialize (Hp s).
  by destruct (run h p s) as [[tr1 s1] r].
Qed.

Lemma balanced_call {X} (ev : event X) :
  o X ev = false -> c X ev = false -> balanced h o c (call ev).
Proof.
  intros Ho Hc s. rewrite run_call. destruct (handle h ev s) as [[x|e] s1];
    unfold trace_of; simpl; by rewrite ?Ho, ?Hc.
Qed.

Lemma balanced_reraise {A} (r : result A) : balanced h o c (reraise r).
Proof. destruct r; [apply balanced_Ret|apply balanced_Throw]. Qed.

Lemma balanced_for {X} (l : list X) (body : X -> prog unit) :
  (forall x, balanced h o c (body x)) -> balanced h o c (for_ l body).
Proof.
  intros Hb. induction l as [|x l IH]; [apply balanced_Ret|].
  rewrite for_cons. apply balanced_bind; [apply Hb|done].
Qed.

(** A [with] block around a balanced body is balanced, when its entering
    and leaving calls are the acquiring and releasing ones, or neither. *)
Lemma balanced_with {A} (eo ec : event unit) (body : unit -> prog A) :
  o unit eo = c unit ec -> c unit eo = false -> o unit ec = false ->
  (forall x, balanced h o c (body x)) ->
  balanced h o c (with_ (call eo) (fun _ => call ec) body).
Proof.
  intros Hpair Hco Hoc Hb s. unfold with_. rewrite run_bind, run_call.
  destruct (handle h eo s) as [[[]|e] s1].
  - rewrite run_bind, run_attempt. specialize (Hb tt s1).
    destruct (run h (body tt) s1) as [[tr1 s2] r].
    rewrite run_bind, run_call.
    destruct (handle h ec s2) as [[[]|e] s3]; destruct r as [a|e'];
      unfold trace_of in *; simpl in *;
      rewrite ?count_calls_app, ?count_ok_app; simpl;
      rewrite ?Hco, ?Hoc, ?Hpair; destruct (c unit ec); lia.
  - unfold trace_of. simpl. by rewrite Hco.
Qed.

Lemma balanced_download folder :
  (forall X (ev : event X), opens_file X ev = false -> closes_file X ev = false ->
     opens_bar X ev = false -> closes_bar X ev = false ->
     opens_zip X ev = false -> closes_zip X ev = false ->
     o X ev = false /\ c X ev = false) ->
  o unit (OpenWb (os_path_join folder "mmash.zip")) = c unit FileClose ->
  c unit (OpenWb (os_path_join folder "mmash.zip")) = false ->
  o unit FileClose = false ->
  (forall total, o unit (TqdmOpen "Downloading MMASH" total) = c unit TqdmClose) ->
  (forall total, c unit (TqdmOpen "Downloading MMASH" total) = false) ->
  o unit TqdmClose = false ->
  o unit (ZipOpen (os_path_join folder "mmash.zip")) = c unit ZipClose ->
  c unit (ZipOpen (os_path_join folder "mmash.zip")) = false ->
  o unit ZipClose = false ->
  balanced h o c (download_and_extract folder).
Proof.
  intros Hother Hf1 Hf2 Hf3 Hb1 Hb2 Hb3 Hz1 Hz2 Hz3.
  assert (forall X (ev : event X),
            opens_file X ev = false -> closes_file X ev = false ->
            opens_bar X ev = false -> closes_bar X ev = false ->
            opens_zip X ev = false -> closes_zip X ev = false ->
            balanced h o c (call ev)) as Hcall.
  { intros X ev ? ? ? ? ? ?. destruct (Hother X ev) as [Ho Hc]; try done.
    by apply balanced_call. }
  unfold download_and_extract.
  apply balanced_bind; [by apply Hcall|]. intros _.
  apply balanced_bind; [by apply Hcall|]. intros resp.
  apply balanced_bind.
  { destruct (headers_get _ _) as [str|]; [|apply balanced_Ret].
    destruct (Py.int_of_str str); [apply balanced_Ret|apply balanced_Throw]. }
  intros total. apply balanced_bind; [|intros _; apply balanced_bind]; [| |intros _].
  - apply balanced_with; try done. intros _.
    apply balanced_with; try done. intros _.
    apply balanced_bind; [by apply Hcall|]. intros content.
    apply balanced_bind.
    + apply balanced_for. intros data. apply balanced_bind; [by apply Hcall|].
      intros size. by apply Hcall.
    + intros _. destruct (snd content); [apply balanced_Throw|apply balanced_Ret].
  - apply balanced_with; try done. intros _. by apply Hcall.
  - by apply Hcall.
Qed.

End Balance.

(** X8: on any machine and however the download goes (a failing request,
    a rejected header, a stream or a write that fails, a corrupt archive),
    [download_and_extract] closes what it opened: its log has one
    [file.close] for every [open] that succeeded, one closing of the progress
    bar for every bar that was created, and one closing of the zip reader for
    every archive that was opened for reading. *)
Theorem X8_download_releases_what_it_opens
    (S : Type) (h : handler S) (s : S) (folder : string) :
  let tr := trace_of (run h (download_and_extract folder) s) in
  count_calls closes_file tr = count_ok opens_file tr
  /\ count_calls closes_bar tr = count_ok opens_bar tr
  /\ count_calls closes_zip tr = count_ok opens_zip tr.
Proof.
  cbv zeta. split; [|split].
  - apply (balanced_download h opens_file closes_file folder); try done;
      intros X ev Hof Hcf Hob Hcb Hoz Hcz; by rewrite ?Hof, ?Hcf.
  - apply (balanced_download h opens_bar closes_bar folder); try done;
      intros X ev Hof Hcf Hob Hcb Hoz Hcz; by rewrite ?Hob, ?Hcb.
  - apply (balanced_download h opens_zip closes_zip folder); try done;
      intros X ev Hof Hcf Hob Hcb Hoz Hcz; by rewrite ?Hoz, ?Hcz.
Qed.

(** ** What a download does *)

Lemma gets_app (tr1 tr2 : list entry) : gets (tr1 ++ tr2) = gets tr1 ++ gets tr2.
Proof.
  induction tr1 as [|[X ev ans] tr1 IH]; [done|]. simpl.
  destruct ev; simpl; by rewrite ?IH.
Qed.

Lemma extracted_app (tr1 tr2 : list entry) :
  extracted (tr1 ++ tr2) = extracted tr1 ++ extracted tr2.
Proof.
  induction tr1 as [|[X ev ans] tr1 IH]; [done|]. simpl.
  destruct ev; simpl; by rewrite ?IH.
Qed.

Lemma removed_app (tr1 tr2 : list entry) :
  removed (tr1 ++ tr2) = removed tr1 ++ removed tr2.
Proof.
  induction tr1 as [|[X ev ans] tr1 IH]; [done|]. simpl.
  destruct ev; simpl; by rewrite ?IH.
Qed.

Lemma updates_app (tr1 tr2 : list entry) :
  updates (tr1 ++ tr2) = updates tr1 ++ updates tr2.
Proof.
  induction tr1 as [|[X ev ans] tr1 IH]; [done|]. simpl.
  destruct ev; simpl; by rewrite ?IH.
Qed.

Lemma gets_not_get (tr : list entry) :
  forallb (entry_is not_get) tr = true -> gets tr = [].
Proof.
  induction tr as [|[X ev ans] tr IH]; [done|]. simpl.
  intros [Hev Htr]%andb_prop. destruct ev; try discriminate Hev; auto.
Qed.

Lemma run_write_chunks_log d content (written : list bytes) :
  exists tr,
    run (server d) (write_chunks content) written = (tr, written ++ content, Ok tt)
    /\ updates tr = map length content
    /\ gets tr = [] /\ extracted tr = [] /\ removed tr = [].
Proof.
  unfold write_chunks. revert written.
  induction content as [|data content IH]; intros written.
  - exists []. by rewrite app_nil_r.
  - rewrite run_for_cons, run_bind, !run_call. cbn [handle server server_handle].
    rewrite run_call. cbn [handle server server_handle].
    destruct (IH (written ++ [data])) as (tr & -> & Hu & Hg & He & Hr).
    eexists. split; [|split; [|split; [|split]]].
    + rewrite <- (app_assoc written [data] content). reflexivity.
    + simpl. by rewrite Hu.
    + exact Hg.
    + exact He.
    + exact Hr.
Qed.

Lemma run_download_log d folder (written : list bytes) (total : Z) :
  match headers_get (headers (response d)) "content-length" with
  | None => total = 0%Z
  | Some s => Py.int_of_str s = Some total
  end ->
  exists tr,
    trace_of (run (server d) (download_and_extract folder) written) = tr
    /\ gets tr = [(MMASH_URL, true)]
    /\ updates tr = map length (chunks d)
    /\ extracted tr = match failure d with None => [folder] | Some _ => [] end
    /\ removed tr = match failure d with
                    | None => [os_path_join folder "mmash.zip"]
                    | Some _ => []
                    end.
Proof.
  intros Hlen. unfold download_and_extract, with_.
  do 3 run_server_step. do 2 run_server_step.
  assert (run (server d)
            match headers_get (headers (response d)) "content-length" with
            | Some s =>
                match Py.int_of_str s with
                | Some n => Ret n
                | None => Throw (ValueError ("invalid literal for int() with base 10: "
                                             +:+ Py.repr_str s))
                end
            | None => Ret 0%Z
            end written = ([], written, Ok total)) as ->.
  { destruct (headers_get _ _) as [s|]; [by rewrite Hlen|by subst]. }
  repeat run_server_step.
  destruct (run_write_chunks_log d (chunks d) []) as (tr & -> & Hu & Hg & He & Hr).
  cbn [app].
  destruct (failure d) as [e|]; unfold trace_of; cbn -[os_path_join MMASH_URL app];
    (eexists; split; [reflexivity|]);
    cbn [gets updates extracted removed].
  all: repeat (first [rewrite gets_app | rewrite updates_app
                     | rewrite extracted_app | rewrite removed_app];
               cbn [gets updates extracted removed app]).
  all: rewrite Hu, Hg, He, Hr; simpl; by rewrite ?app_nil_r.
Qed.

(** X9: on a machine on which acquisition goes through, with a
    content-length header that is absent or that [int] accepts and whatever
    the status code of the answer: the download makes one HTTP request, to
    the fixed archive URL, streamed.  When the stream ends normally the
    archive is extracted once, into the dataset folder, and [mmash.zip] is
    removed; when the stream fails nothing is extracted and the partly
    written [mmash.zip] is not removed. *)
Theorem X9_extraction_and_cleanup_follow_a_complete_stream
    (d : Download) (folder : string) (written : list bytes) (total : Z) :
  let tr := trace_of (run (server d) (download_and_extract folder) written) in
  match headers_get (headers (response d)) "content-length" with
  | None => total = 0%Z
  | Some s => Py.int_of_str s = Some total
  end ->
  gets tr = [(MMASH_URL, true)]
  /\ extracted tr = match failure d with None => [folder] | Some _ => [] end
  /\ removed tr = match failure d with
                  | None => [os_path_join folder "mmash.zip"]
                  | Some _ => []
                  end.
Proof.
  intros tr Hlen. subst tr.
  destruct (run_download_log d folder written total Hlen) as (tr & -> & Hg & _ & He & Hr).
  done.
Qed.

Lemma X9_witness :
  extracted (trace_of (run (server wrong_length) (download_and_extract "data/MMASH") []))
  = ["data/MMASH"]
  /\ removed (trace_of (run (server wrong_length) (download_and_extract "data/MMASH") []))
     = ["data/MMASH/mmash.zip"].
Proof.
  destruct (X9_extraction_and_cleanup_follow_a_complete_stream
              wrong_length "data/MMASH" [] 999%Z) as (_ & He & Hr).
  - vm_compute. reflexivity.
  - split; [exact He|exact Hr].
Defined.

Lemma list_sum_lengths (l : list bytes) :
  list_sum (map length l) = length (concat l).
Proof.
  induction l as [|c l IH]; [done|]. simpl. by rewrite length_app, IH.
Qed.

Lemma write_reports_app (tr1 tr2 : list entry) :
  write_reports (tr1 ++ tr2) = write_reports tr1 ++ write_reports tr2.
Proof.
  induction tr1 as [|[X ev ans] tr1 IH]; [done|]. simpl.
  destruct ev; simpl; rewrite ?IH; try done. by destruct ans.
Qed.

Section Reported.
Context {S : Type} (h : handler S).

Lemma reported_Ret {A} (a : A) : reported h (Ret a).
Proof. by intros s. Qed.

Lemma reported_Throw {A} (e : exn) : reported h (@Throw A e).
Proof. by intros s. Qed.

Lemma reported_bind {A B} (p : prog A) (f : A -> prog B) :
  reported h p -> (forall a, reported h (f a)) -> reported h (bind p f).
Proof.
  intros Hp Hf s. rewrite run_bind. specialize (Hp s).
  destruct (run h p s) as [[tr1 s1] [a|e]]; [|done].
  specialize (Hf a s1). destruct (run h (f a) s1) as [[tr2 s2] r].
  unfold trace_of in *. simpl in *.
  by rewrite updates_app, write_reports_app, Hp, Hf.
Qed.

Lemma reported_attempt {A} (p : prog A) : reported h p -> reported h (attempt p).
Proof.
  intros Hp s. rewrite run_attempt. specialize (Hp s).
  by destruct (run h p s) as [[tr1 s1] r].
Qed.

Lemma reported_call {X} (ev : event X) :
  not_write_or_update X ev = true -> reported h (call ev).
Proof.
  intros Hev s. rewrite run_call. destruct (handle h ev s) as [ans s1].
  unfold trace_of. simpl. by destruct ev.
Qed.

Lemma reported_for {X} (l : list X) (body : X -> prog unit) :
  (forall x, reported h (body x)) -> reported h (for_ l body).
Proof.
  intros Hb. induction l as [|x l IH]; [apply reported_Ret|].
  rewrite for_cons. apply reported_bind; [apply Hb|done].
Qed.

Lemma reported_with {A} (eo ec : event unit) (body : unit -> prog A) :
  not_write_or_update unit eo = true -> not_write_or_update unit ec = true ->
  (forall x, reported h (body x)) ->
  reported h (with_ (call eo) (fun _ => call ec) body).
Proof.
  intros Ho Hc Hb. unfold with_.
  apply reported_bind; [by apply reported_call|]. intros x.
  apply reported_bind; [by apply reported_attempt|]. intros r.
  apply reported_bind; [by apply reported_call|]. intros _.
  destruct r; [apply reported_Ret|apply reported_Throw].
Qed.

(** One round of the writing loop: the bar is advanced by what the write
    reported, and not at all when the write raises. *)
Lemma reported_write (data : bytes) :
  reported h (size <- call (FileWrite data) ;; call (TqdmUpdate size)).
Proof.
  intros s. rewrite run_bind, run_call.
  destruct (handle h (FileWrite data) s) as [[n|e] s1]; [|done].
  rewrite run_call. by destruct (handle h (TqdmUpdate n) s1) as [ans s2].
Qed.

Lemma reported_download folder : reported h (download_and_extract folder).
Proof.
  unfold download_and_extract.
  apply reported_bind; [by apply reported_call|]. intros _.
  apply reported_bind; [by apply reported_call|]. intros resp.
  apply reported_bind.
  { destruct (headers_get _ _) as [str|]; [|apply reported_Ret].
    destruct (Py.int_of_str str); [apply reported_Ret|apply reported_Throw]. }
  intros total. apply reported_bind; [|intros _; apply reported_bind]; [| |intros _].
  - apply reported_with; try done. intros _.
    apply reported_with; try done. intros _.
    apply reported_bind; [by apply reported_call|]. intros content.
    apply reported_bind.
    + apply reported_for. intros data. apply reported_write.
    + intros _. destruct (snd content); [apply reported_Throw|apply reported_Ret].
  - apply reported_with; try done. intros _. by apply reported_call.
  - by apply reported_call.
Qed.

End Reported.

(** X10: on any machine and however the download goes, the progress bar is
    advanced once for every [file.write] that succeeded, in order, by the
    number of bytes that write reported, and never otherwise.  On a machine on
    which acquisition goes through, with a content-length header that is
    absent or that [int] accepts, this is once per chunk of the body by the
    size of the chunk: the progress adds up to the size of what was written,
    whatever total the header declared. *)
Theorem X10_progress_advances_by_the_bytes_written
    (S : Type) (h : handler S) (s : S)
    (d : Download) (folder : string) (written : list bytes) :
  let x := run (server d) (download_and_extract folder) written in
  updates (trace_of (run h (download_and_extract folder) s))
  = write_reports (trace_of (run h (download_and_extract folder) s))
  /\ (forall total : Z,
        match headers_get (headers (response d)) "content-length" with
        | None => total = 0%Z
        | Some v => Py.int_of_str v = Some total
        end ->
        updates (trace_of x) = map length (chunks d)
        /\ list_sum (updates (trace_of x)) = length (concat (state_of x))).
Proof.
  cbv zeta. split; [apply reported_download|].
  intros total Hlen.
  destruct (run_download_log d folder written total Hlen) as (tr & Htr & _ & Hu & _).
  destruct (run_download d folder written total Hlen) as (tr' & Hrun & _).
  rewrite Htr, Hu. split; [done|].
  rewrite Hrun. unfold state_of. simpl. apply list_sum_lengths.
Qed.

Lemma X10_witness :
  updates (trace_of (run (server wrong_length) (download_and_extract "data/MMASH") []))
  = [2; 2]
  /\ write_reports
       (trace_of (run (server wrong_length) (download_and_extract "data/MMASH") []))
     = [2; 2].
Proof.
  destruct (X10_progress_advances_by_the_bytes_written (list bytes)
              (server wrong_length) [] wrong_length "data/MMASH" [])
    as (Hgen & Hsrv).
  destruct (Hsrv 999%Z) as (Hu & _).
  - vm_compute. reflexivity.
  - split; [exact Hu|]. rewrite <- Hgen. exact Hu.
Defined.

Lemma download_gets {S} (h : handler S) folder (s : S) :
  gets (trace_of (run h (download_and_extract folder) s)) = []
  \/ gets (trace_of (run h (download_and_extract folder) s)) = [(MMASH_URL, true)].
Proof.
  unfold download_and_extract. rewrite run_bind, run_call.
  destruct (handle h (OsMakedirs folder true) s) as [[[]|e] s1]; [|by left].
  rewrite run_bind, run_call.
  destruct (handle h (RequestsGet MMASH_URL true) s1) as [[resp|e] s2]; [|by right].
  right.
  match goal with
  | |- context [run h ?p s2] =>
      assert (only not_get p) as Honly;
      [|pose proof (only_run h not_get p s2 Honly) as Hrest;
        destruct (run h p s2) as [[tr s3] r]]
  end.
  - apply only_bind.
    { destruct (headers_get _ _) as [str|]; [|constructor].
      destruct (Py.int_of_str str); constructor. }
    intros total. apply only_bind; [|intros _; apply only_bind]; [| |intros _].
    + apply only_with; [by apply only_call|intros; by apply only_call|].
      intros _. apply only_with; [by apply only_call|intros; by apply only_call|].
      intros _. apply only_bind; [by apply only_call|]. intros content.
      apply only_bind.
      * apply only_for. intros data. apply only_bind; [by apply only_call|].
        intros size. by apply only_call.
      * intros _. destruct (snd content); constructor.
    + apply only_with; [by apply only_call|intros; by apply only_call|].
      intros _. by apply only_call.
    + by apply only_call.
  - unfold trace_of in *. simpl in *. by rewrite (gets_not_get tr Hrest).
Qed.

(** X11: on any machine and for any arguments, the constructor makes at most
    one HTTP request, and that request is a streamed GET of the fixed archive
    URL: no other address is ever contacted, and nothing is requested twice. *)
Theorem X11_at_most_one_request_to_the_archive_url
    (S : Type) (h : handler S) (s : S)
    (root_arg : string) (tables_arg : option (list string)) (dev : bool)
    (kwargs : Kwargs) :
  let tr := trace_of (run h (__init__ root_arg tables_arg dev kwargs) s) in
  gets tr = [] \/ gets tr = [(MMASH_URL, true)].
Proof.
  cbv zeta. unfold __init__. destruct tables_arg as [tables|]; [|by left].
  destruct (validate_cases tables) as [-> | [e ->]]; [|by left].
  change (bind (Ret tt) ?f) with (f tt). cbv beta.
  rewrite run_bind, run_call.
  destruct (handle h (SuperInit _ _ _ _ _) s) as [[root|e] s1]; [|by left].
  rewrite run_bind, run_call.
  destruct (handle h (OsPathExists _) s1) as [[present|e] s2]; [|by left].
  rewrite run_bind.
  assert (forall s3,
            gets (trace_of (run h
              (load_data {| tables := tables; root := root;
                            dataset_folder := os_path_join root MMASH_FOLDER |};;;
               Ret {| tables := tables; root := root;
                      dataset_folder := os_path_join root MMASH_FOLDER |}) s3)) = [])
    as Hload.
  { intros s3. apply gets_not_get, only_run.
    apply only_bind; [by apply only_load_data|]. intros; constructor. }
  destruct present; simpl negb; cbv iota.
  - left. specialize (Hload s2). cbn [run].
    destruct (run h (_ ;;; _) s2) as [[tr s3] r]. unfold trace_of in *. simpl in *.
    done.
  - pose proof (download_gets h (os_path_join root MMASH_FOLDER) s2) as Hd.
    destruct (run h (download_and_extract _) s2) as [[tr1 s3] [[]|e]].
    + specialize (Hload s3).
      destruct (run h (_ ;;; _) s3) as [[tr2 s4] r]. unfold trace_of in *. simpl in *.
      rewrite gets_app, Hload, app_nil_r. done.
    + unfold trace_of in *. simpl in *. done.
Qed.

(** X12: on any machine, when the dataset folder could be created and the
    request is answered with a content-length header that [int] rejects,
    [download_and_extract] raises ValueError right after the request: the
    folder has been created, but no archive file is opened, nothing is
    written, extracted or removed. *)
Theorem X12_rejected_content_length_stops_before_the_archive
    (S : Type) (h : handler S) (s s1 s2 : S) (folder : string)
    (resp : Response) (value : string) :
  handle h (OsMakedirs folder true) s = (Ok tt, s1) ->
  handle h (RequestsGet MMASH_URL true) s1 = (Ok resp, s2) ->
  headers_get (headers resp) "content-length" = Some value ->
  Py.int_of_str value = None ->
  exists msg,
    run h (download_and_extract folder) s
    = ([Log (OsMakedirs folder true) (Ok tt);
        Log (RequestsGet MMASH_URL true) (Ok resp)],
       s2, Exc (ValueError msg)).
Proof.
  intros Hmk Hget Hhead Hint. eexists. unfold download_and_extract.
  rewrite run_bind, run_call, Hmk. rewrite run_bind, run_call, Hget.
  rewrite run_bind, Hhead, Hint. reflexivity.
Qed.

Lemma X12_witness :
  exists msg,
    run (server bad_length) (download_and_extract "data/MMASH") []
    = ([Log (OsMakedirs "data/MMASH" true) (Ok tt);
        Log (RequestsGet MMASH_URL true) (Ok (response bad_length))],
       [], Exc (ValueError msg)).
Proof.
  apply (X12_rejected_content_length_stops_before_the_archive (list bytes)
           (server bad_length) [] [] [] "data/MMASH" (response bad_length) "abc").
  - reflexivity.
  - reflexivity.
  - vm_compute. reflexivity.
  - vm_compute. reflexivity.
Defined.

(** ** Construction after a download *)

(** X13: on any machine, when the base class is constructed,
    [root/MMASH/MMASH] is reported absent and [download_and_extract] ends
    normally, the constructor goes on with the load from the state the
    download left: its log is the two first calls, the log of the download,
    then the log of [load_data]; it stores what that load stores, returns the
    instance when the load ends normally and raises what the load raises. *)
Theorem X13_constructor_loads_after_a_download
    (S : Type) (h : handler S) (s s1 s2 : S)
    (root_arg root : string) (tables : list string) (dev : bool) (kwargs : Kwargs) :
  let folder := os_path_join root "MMASH" in
  let self := {| tables := tables; root := root; dataset_folder := folder |} in
  let a := run h (download_and_extract folder) s2 in
  let l := run h (load_data self) (state_of a) in
  let x := run h (__init__ root_arg (Some tables) dev kwargs) s in
  Forall (fun t => In t ALL_TABLES) tables ->
  handle h (SuperInit "MMASH" root_arg tables dev kwargs) s = (Ok root, s1) ->
  handle h (OsPathExists (os_path_join folder "MMASH")) s1 = (Ok false, s2) ->
  result_of a = Ok tt ->
  trace_of x
  = Log (SuperInit "MMASH" root_arg tables dev kwargs) (Ok root)
      :: Log (OsPathExists (os_path_join folder "MMASH")) (Ok false)
      :: trace_of a ++ trace_of l
  /\ state_of x = state_of l
  /\ result_of x = match result_of l with Ok _ => Ok self | Exc e => Exc e end.
Proof.
  intros folder self a l x Hok Hinit Hex Hdone. subst x l a. unfold __init__.
  rewrite (validate_supported tables Hok).
  change (bind (Ret tt) ?f) with (f tt). cbv beta.
  rewrite run_bind, run_call, Hinit.
  rewrite run_bind, run_call. unfold MMASH_FOLDER. fold folder. rewrite Hex.
  simpl negb. cbv iota. rewrite run_bind.
  destruct (run h (download_and_extract folder) s2) as [[tr1 s3] r].
  unfold result_of in Hdone. simpl in Hdone. subst r.
  change (state_of (tr1, s3, @Ok unit tt)) with s3.
  change (trace_of (tr1, s3, @Ok unit tt)) with tr1.
  rewrite run_bind. fold self.
  destruct (run h (load_data self) s3) as [[tr2 s4] [[]|e]];
    unfold result_of, state_of, trace_of; simpl; by rewrite ?app_nil_r.
Qed.

Lemma X13_witness :
  let x := run (install wrong_length demo_fs)
             (__init__ "data" (Some ["user_info"]) false []) fresh in
  patients (stored (state_of x)) = ["user_1"; "user_2"; "user_3"; "user_4"; "user_5"]
  /\ archive (state_of x) = chunks wrong_length.
Proof.
  cbv zeta.
  destruct (X13_constructor_loads_after_a_download install_state
              (install wrong_length demo_fs) fresh fresh fresh
              "data" "data" ["user_info"] false []) as (_ & Hst & _).
  - repeat (constructor; [simpl; auto 10|]). constructor.
  - reflexivity.
  - reflexivity.
  - vm_compute. reflexivity.
  - rewrite Hst. vm_compute. split; reflexivity.
Defined.

(** ** Handing the record over *)

(** X14: on any machine, when an entry is a directory, its requested tables
    are all read and [add_sample] raises [e], the round raises [e], whatever
    its class: the [try] ends before [add_sample], so that even a
    FileNotFoundError of the base class is not taken for a missing table and
    ends the load. *)
Theorem X14_add_sample_error_is_not_caught
    (S : Type) (h : handler S) (s s1 s2 s3 : S) (tables : list string)
    (root_dir u : string) (rest : list string) (tr : list entry)
    (record : record_t) (e : exn) :
  let user_path := os_path_join root_dir u in
  handle h (OsPathIsdir user_path) s = (Ok true, s1) ->
  run h (read_tables tables user_path u ∅) s1 = (tr, s2, Ok record) ->
  handle h (AddSample u u record) s2 = (Exc e, s3) ->
  run h (load_users tables root_dir (u :: rest)) s
  = (Log (OsPathIsdir user_path) (Ok true)
       :: tr ++ [Log (AddSample u u record) (Exc e)],
     s3, Exc e).
Proof.
  intros user_path Hdir Hread Hadd. subst user_path. unfold load_users.
  rewrite run_for_cons, run_load_user. cbv zeta. rewrite Hdir.
  by rewrite run_assemble, Hread, Hadd.
Qed.

Lemma X14_witness :
  result_of (run (no_add_sample demo_fs)
               (load_users ["sleep"] "data/MMASH/MMASH" ["user_1"; "user_2"]) [])
  = Exc (OtherError "AttributeError"
           "'MMASHDataset' object has no attribute 'add_sample'").
Proof.
  rewrite (X14_add_sample_error_is_not_caught (list sample) (no_add_sample demo_fs)
             [] [] [] [] ["sleep"] "data/MMASH/MMASH" "user_1" ["user_2"]
             [Log (PdReadCsv "data/MMASH/MMASH/user_1/sleep.csv") (Ok demo_table)]
             (<["sleep" := df_setitem demo_table "user_id" (VStr "user_1")]> ∅)
             (OtherError "AttributeError"
                "'MMASHDataset' object has no attribute 'add_sample'")).
  - reflexivity.
  - vm_compute. reflexivity.
  - vm_compute. reflexivity.
  - reflexivity.
Defined.
